(** * Remote quick picks of GitLens: a shallow embedding of
    [src/quickpicks/remotesQuickPick.ts] and the properties of its
    resource description, remote selection and presentation session. *)

From stdpp Require Import base option list gmap strings.

Open Scope string_scope.

(** ** Data model *)

(** A reference to a JavaScript object living on the heap. *)
Abbreviation Ref := positive.

(** Modelled from the spec: [RemoteProvider] is declared in the git layer,
    outside this file.  It has a display [name] and a [path]; its operations
    [open] and [copy] are effects, see [ProviderCall] below. *)
Record RemoteProvider := {
  name : string;
  path : string
}.

(** Modelled from the spec: [GitRemote], declared in [git/gitService].
    [provider] may be [undefined]; [default] is a boolean flag. *)
Record GitRemote := {
  provider : option RemoteProvider;
  default : bool
}.

(** Modelled from the spec: the commit attached to a [Revision] resource,
    declared in [git/gitService], with the six properties the description
    switch reads.  [status], [previousSha] and [previousShortSha] may be
    [undefined]. *)
Record GitLogCommit := {
  isFile : bool;
  status : option string;
  sha : string;
  previousSha : option string;
  shortSha : string;
  previousShortSha : option string
}.

(** Modelled from the spec: [RemoteResource], declared in [git/gitService],
    discriminated by [type], one payload per variant.  [Other] stands for an
    object whose [type] is none of the six members of [RemoteResourceType];
    it is what reaches the [default:] arm of the switch. *)
Inductive RemoteResource :=
  | Branch (branch : string)
  | Branches
  | Commit (sha : string)
  | File (fileName : string)
  | Repo
  | Revision (fileName : string) (sha : option string) (commit : option GitLogCommit)
  | Other (type : string).

(** Modelled from the spec: [Commands], declared in [commands]; the one
    member used here. *)
Inductive Commands := OpenInRemote.

(** Modelled from the spec: [CommandQuickPickItem], declared in
    [quickpicks/commonQuickPicks], as its constructor is called here (a label
    and a description, a command and its arguments), and the
    [OpenInRemoteCommandArgs] payload.  The payload holds references:
    [remotes] and [resource] alias the caller's objects.  An element [None] of
    [args] is [undefined]. *)
Inductive CommandQuickPickItem := QuickPickItem {
  label : string;
  description : string;
  command : option Commands;
  args : option (list (option OpenInRemoteCommandArgs))
}
with OpenInRemoteCommandArgs := CommandArgs {
  remotes : Ref;
  resource : Ref;
  goBackCommand : option CommandQuickPickItem
}.

(** The heap: resource objects and remote arrays, by reference. *)
Record Heap := {
  resources : gmap positive RemoteResource;
  arrays : gmap positive (list GitRemote)
}.

(** ** Faults and state *)

Inductive Error := TypeError.

Inductive Outcome (A : Type) :=
  | Ok (a : A)
  | Throw (e : Error).
Arguments Ok {A} a.
Arguments Throw {A} e.

#[global] Instance Outcome_ret : MRet Outcome := fun A a => Ok a.
#[global] Instance Outcome_bind : MBind Outcome := fun A B f c =>
  match c with
  | Ok a => f a
  | Throw e => Throw e
  end.

(** Synchronous code: a heap transformer that returns or throws.  A throw
    keeps the writes made before it. *)
Definition M (A : Type) : Type := Heap -> Outcome A * Heap.

#[global] Instance M_ret : MRet M := fun A a h => (Ok a, h).
#[global] Instance M_bind : MBind M := fun A B f c h =>
  match c h with
  | (Ok a, h') => f a h'
  | (Throw e, h') => (Throw e, h')
  end.

Definition lift {A} (o : Outcome A) : M A := fun h => (o, h).

(** Reading a property of [undefined] throws. *)
Definition deref {A} (o : option A) : Outcome A :=
  match o with
  | Some a => Ok a
  | None => Throw TypeError
  end.

Definition readResource (l : Ref) : M RemoteResource :=
  fun h => (deref (resources h !! l), h).

Definition readRemotes (l : Ref) : M (list GitRemote) :=
  fun h => (deref (arrays h !! l), h).

Definition writeResource (l : Ref) (r : RemoteResource) : M unit :=
  fun h => (Ok tt, {| resources := <[l := r]> (resources h); arrays := arrays h |}).

(** [Array.prototype.every] with a callback that may throw: left to right,
    stopping at the first [false]. *)
Fixpoint every {A} (cb : A -> Outcome bool) (l : list A) : Outcome bool :=
  match l with
  | [] => Ok true
  | x :: xs => b ← cb x; if b : bool then every cb xs else Ok false
  end.

(** [Array.prototype.map] with a constructor that may throw. *)
Fixpoint mapM {A B} (f : A -> M B) (l : list A) : M (list B) :=
  match l with
  | [] => mret []
  | x :: xs => y ← f x; ys ← mapM f xs; mret (y :: ys)
  end.

(** A value inside a template literal: [undefined] prints as such. *)
Definition tpl (o : option string) : string :=
  match o with
  | Some s => s
  | None => "undefined"
  end.

(** Truthiness of a string and of an optional boolean. *)
Definition truthy (s : string) : bool := negb (String.eqb s "").
Definition isTrue (b : option bool) : bool :=
  match b with
  | Some true => true
  | _ => false
  end.

(** ** What the file imports *)

(** [GlyphChars], [Strings.pad], [paths.basename], [GitService.shortenSha],
    [getNameFromRemoteResource] and [getQuickPickIgnoreFocusOut] are declared
    in other modules; every definition below takes them as parameters. *)
Class Externals := {
  GlyphChars_Dash : string;
  GlyphChars_Dot : string;
  GlyphChars_Ellipsis : string;
  GlyphChars_Space : string;
  Strings_pad : string -> nat -> nat -> string;
  paths_basename : string -> string;
  GitService_shortenSha : string -> string;
  getNameFromRemoteResource : RemoteResource -> string;
  getQuickPickIgnoreFocusOut : bool
}.

(** ** The consolidated item: [OpenRemotesCommandQuickPickItem] *)

Section Consolidated.
Context `{Externals}.

(** The [switch (resource.type)] of the constructor: the description text,
    with the assignment to [resource.sha] in the [Revision] arm. *)
Definition describe (resource : Ref) : M string :=
  r ← readResource resource;
  match r with
  | Branch branch => mret ("$(git-branch) " +:+ branch)
  | Branches => mret "$(git-branch) Branches"
  | Commit sha => mret ("$(git-commit) " +:+ GitService_shortenSha sha)
  | File fileName => mret ("$(file-text) " +:+ paths_basename fileName)
  | Repo => mret "$(repo) Repository"
  | Revision fileName rsha commit =>
      let plain :=
        let shortFileSha :=
          match rsha with
          | None => ""
          | Some s => GitService_shortenSha s
          end in
        mret ("$(file-text) " +:+ paths_basename fileName +:+
              (if truthy shortFileSha
               then " in " +:+ GlyphChars_Space +:+ "$(git-commit) " +:+ shortFileSha
               else "")) in
      match commit with
      | Some c =>
          if isFile c then
            if bool_decide (status c = Some "D") then
              writeResource resource (Revision fileName (previousSha c) commit);;
              mret ("$(file-text) " +:+ paths_basename fileName +:+ " in " +:+
                    GlyphChars_Space +:+ "$(git-commit) " +:+ tpl (previousShortSha c) +:+
                    " (deleted in " +:+ GlyphChars_Space +:+ "$(git-commit) " +:+
                    shortSha c +:+ ")")
            else
              writeResource resource (Revision fileName (Some (sha c)) commit);;
              mret ("$(file-text) " +:+ paths_basename fileName +:+ " in " +:+
                    GlyphChars_Space +:+ "$(git-commit) " +:+ shortSha c)
          else plain
      | None => plain
      end
  | Other _ => mret ""
  end.

(** [let remote] and the two tests on [remotes.length]. *)
Definition selectRemote (rs : list GitRemote) : option GitRemote :=
  if (1 <? length rs)%nat then find default rs
  else if (length rs =? 1)%nat then rs !! 0
  else None.

(** The callback of [remotes.every]: [remote] is [remotes[0]]. *)
Definition sameProvider (remote : option GitRemote) (r : GitRemote) : Outcome bool :=
  match provider r with
  | None => Ok false
  | Some p =>
      rm ← deref remote;
      q ← deref (provider rm);
      mret (String.eqb (name p) (name q))
  end.

Definition OpenRemotesCommandQuickPickItem
    (remotes resource : Ref) (goBackCommand : option CommandQuickPickItem)
    : M CommandQuickPickItem :=
  r ← readResource resource;
  let name_ := getNameFromRemoteResource r in
  description ← describe resource;
  rs ← readRemotes remotes;
  let commandArgs := CommandArgs remotes resource goBackCommand in
  match selectRemote rs with
  | Some remote =>
      p ← lift (deref (provider remote));
      mret (QuickPickItem
              ("$(link-external) Open " +:+ name_ +:+ " on " +:+ name p)
              (Strings_pad GlyphChars_Dash 2 3 +:+ " $(repo) " +:+ path p +:+ " " +:+
               Strings_pad GlyphChars_Dot 1 1 +:+ " " +:+ description)
              (Some OpenInRemote)
              (Some [None; Some commandArgs]))
  | None =>
      let remote := rs !! 0 in
      same ← lift (every (sameProvider remote) rs);
      provider_ ← lift (if same : bool
                        then rm ← deref remote; q ← deref (provider rm); mret (name q)
                        else mret "Remote");
      mret (QuickPickItem
              ("$(link-external) Open " +:+ name_ +:+ " on " +:+ provider_ +:+
               GlyphChars_Ellipsis)
              (Strings_pad GlyphChars_Dash 2 3 +:+ " " +:+ description)
              (Some OpenInRemote)
              (Some [None; Some commandArgs]))
  end.

End Consolidated.

(** ** The per-remote item: [OpenRemoteCommandQuickPickItem] *)

(** The subclass adds the private fields [remote] and [resource] and the
    public [clipboard] to the fields of [CommandQuickPickItem]. *)
Record OpenRemoteCommandQuickPickItem := {
  base : CommandQuickPickItem;
  this_remote : GitRemote;
  this_resource : Ref;
  clipboard : option bool
}.

(** What [window.showQuickPick] is given and what [show] returns. *)
Inductive QuickPickEntry :=
  | RemoteEntry (i : OpenRemoteCommandQuickPickItem)
  | CommandEntry (i : CommandQuickPickItem).

Record QuickPickOptions := {
  placeHolder : string;
  ignoreFocusOut : bool
}.

(** The two operations of a provider. *)
Inductive ProviderCall :=
  | ProviderCopy (p : RemoteProvider) (resource : Ref)
  | ProviderOpen (p : RemoteProvider) (resource : Ref).

(** Asynchronous code: a promise that settles, waits for the quick pick, or
    waits for a provider. *)
Inductive Async (A : Type) :=
  | Resolved (a : A)
  | Rejected (e : Error)
  | ShowQuickPick (items : list QuickPickEntry) (options : QuickPickOptions)
                  (k : option QuickPickEntry -> Async A)
  | CallProvider (c : ProviderCall) (k : option unit -> Async A).
Arguments Resolved {A} a.
Arguments Rejected {A} e.
Arguments ShowQuickPick {A} items options k.
Arguments CallProvider {A} c k.

(** The provider calls a promise makes, for given answers of the quick pick
    and of the providers. *)
Fixpoint providerCalls {A} (pick : list QuickPickEntry -> option QuickPickEntry)
    (answer : ProviderCall -> option unit) (p : Async A) : list ProviderCall :=
  match p with
  | Resolved _ | Rejected _ => []
  | ShowQuickPick items _ k => providerCalls pick answer (k (pick items))
  | CallProvider c k => c :: providerCalls pick answer (k (answer c))
  end.

Section PerRemote.
Context `{Externals}.

Definition new_OpenRemoteCommandQuickPickItem
    (remote : GitRemote) (resource : Ref) (clipboard : option bool)
    : M OpenRemoteCommandQuickPickItem :=
  r ← readResource resource;
  label_ ← (if isTrue clipboard
            then p ← lift (deref (provider remote));
                 mret ("$(link-external) Copy " +:+ getNameFromRemoteResource r +:+
                       " Url to Clipboard from " +:+ name p)
            else p ← lift (deref (provider remote));
                 mret ("$(link-external) Open " +:+ getNameFromRemoteResource r +:+
                       " on " +:+ name p));
  p ← lift (deref (provider remote));
  mret {| base := QuickPickItem label_
                    (Strings_pad GlyphChars_Dash 2 3 +:+ " $(repo) " +:+ path p)
                    None None;
          this_remote := remote;
          this_resource := resource;
          clipboard := clipboard |}.

(** [execute()]: the provider's promise is returned as it is. *)
Definition execute (this : OpenRemoteCommandQuickPickItem) : Async (option unit) :=
  if isTrue (clipboard this) then
    match provider (this_remote this) with
    | Some p => CallProvider (ProviderCopy p (this_resource this)) Resolved
    | None => Rejected TypeError
    end
  else
    match provider (this_remote this) with
    | Some p => CallProvider (ProviderOpen p (this_resource this)) Resolved
    | None => Rejected TypeError
    end.

(** The callback of [remotes.map] in [show]: the new item, seen at the
    type of the array's elements. *)
Definition entryFor (resource : Ref) (clipboard : option bool) (r : GitRemote)
    : M QuickPickEntry :=
  i ← new_OpenRemoteCommandQuickPickItem r resource clipboard; mret (RemoteEntry i).

(** [items.splice(0, 0, goBackCommand)] under [if (goBackCommand)]. *)
Definition withGoBack (goBackCommand : option CommandQuickPickItem)
    (items : list QuickPickEntry) : list QuickPickEntry :=
  match goBackCommand with
  | Some g => CommandEntry g :: items
  | None => items
  end.

(** [RemotesQuickPick.show]: a throw before the [await] rejects the promise. *)
Definition show (remotes : Ref) (placeHolder : string) (resource : Ref)
    (clipboard : option bool) (goBackCommand : option CommandQuickPickItem)
    : Heap -> Async (option QuickPickEntry) * Heap := fun h =>
  match (rs ← readRemotes remotes; mapM (entryFor resource clipboard) rs) h with
  | (Throw e, h') => (Rejected e, h')
  | (Ok items, h') =>
      (ShowQuickPick (withGoBack goBackCommand items)
         {| placeHolder := placeHolder; ignoreFocusOut := getQuickPickIgnoreFocusOut |}
         (fun pick =>
            match pick with
            | None => Resolved None
            | Some p => Resolved (Some p)
            end),
       h')
  end.

End PerRemote.

(** Running a promise to its settlement, for given answers of the quick pick
    and of the providers. *)
Fixpoint settle {A} (pick : list QuickPickEntry -> option QuickPickEntry)
    (answer : ProviderCall -> option unit) (p : Async A) : Outcome A :=
  match p with
  | Resolved a => Ok a
  | Rejected e => Throw e
  | ShowQuickPick items _ k => settle pick answer (k (pick items))
  | CallProvider c k => settle pick answer (k (answer c))
  end.

(** ** A concrete environment *)

(** The no-break space, U+00A0. *)
Definition nbsp : string := " ".

Fixpoint repeatString (s : string) (n : nat) : string :=
  match n with
  | O => ""
  | S n' => s +:+ repeatString s n'
  end.

Fixpoint lastSegment (s acc : string) : string :=
  match s with
  | EmptyString => acc
  | String c s' =>
      if Ascii.eqb c (Ascii.ascii_of_nat 47) then lastSegment s' "" else lastSegment s' (acc +:+ String c "")
  end.

Definition resourceNoun (r : RemoteResource) : string :=
  match r with
  | Branch _ => "Branch"
  | Branches => "Branches"
  | Commit _ => "Commit"
  | File _ => "File"
  | Repo => "Repository"
  | Revision _ _ _ => "Revision"
  | Other _ => ""
  end.

(** Modelled from the spec: the glyph table, [Strings.pad], [paths.basename],
    [GitService.shortenSha], [getNameFromRemoteResource] and the focus setting
    are declared outside this file.  This instance follows the spec's words (a
    padded separator, the final path segment, a fixed-length prefix of the sha,
    a short noun for each variant); it is used by the examples only. *)
Definition specExternals : Externals := {|
  GlyphChars_Dash := "—";
  GlyphChars_Dot := "•";
  GlyphChars_Ellipsis := "…";
  GlyphChars_Space := nbsp;
  Strings_pad := fun s before after =>
    repeatString nbsp before +:+ s +:+ repeatString nbsp after;
  paths_basename := fun p => lastSegment p "";
  GitService_shortenSha := fun s => String.substring 0 7 s;
  getNameFromRemoteResource := resourceNoun;
  getQuickPickIgnoreFocusOut := true
|}.

(** A file commit whose short forms are the shortened shas. *)
Definition fileCommit (status : option string) (sha : string)
    (previousSha : option string) : GitLogCommit := {|
  isFile := true;
  status := status;
  sha := sha;
  previousSha := previousSha;
  shortSha := String.substring 0 7 sha;
  previousShortSha := String.substring 0 7 <$> previousSha
|}.

Definition heapOf (r : RemoteResource) (rs : list GitRemote) : Heap := {|
  resources := {[ 1%positive := r ]};
  arrays := {[ 2%positive := rs ]}
|}.

Definition remoteOf (n p : string) (d : bool) : GitRemote :=
  {| provider := Some {| name := n; path := p |}; default := d |}.

Definition bareRemote (d : bool) : GitRemote :=
  {| provider := None; default := d |}.

(** Inputs of the examples. *)
Definition mixedRemotes : list GitRemote :=
  [remoteOf "GitHub" "org/repo" false; remoteOf "GitLab" "org/repo" false;
   remoteOf "GitHub" "org/fork" false].

Definition githubRemotes : list GitRemote :=
  [remoteOf "GitHub" "org/repo" false; remoteOf "GitHub" "org/fork" false;
   remoteOf "GitHub" "org/docs" false].

Definition defaultSecond : list GitRemote :=
  [remoteOf "GitHub" "org/repo" false; remoteOf "GitLab" "grp/repo" true;
   remoteOf "Bitbucket" "team/repo" true].

Definition bareFirst : list GitRemote :=
  [bareRemote false; remoteOf "GitLab" "grp/repo" false].

Definition bareSecond : list GitRemote :=
  [remoteOf "GitHub" "org/repo" false; bareRemote false].

Definition deletedRevision : RemoteResource :=
  Revision "src/app/main.ts" (Some "bbb222")
    (Some (fileCommit (Some "D") "bbb222" (Some "aaa111"))).

Definition keptRevision : RemoteResource :=
  Revision "src/app/main.ts" None
    (Some (fileCommit (Some "M") "ccc333" (Some "bbb222"))).

Definition goBackItem : CommandQuickPickItem :=
  QuickPickItem "$(arrow-left) Go back" "" None None.

(** ** Vocabulary of the properties *)

Definition Contains (needle s : string) : Prop :=
  exists pre post, s = pre +:+ needle +:+ post.

Definition EndsWith (suffix s : string) : Prop :=
  exists pre, s = pre +:+ suffix.

(** [r] is the first remote of [rs], in list order, flagged default. *)
Definition FirstDefault (rs : list GitRemote) (r : GitRemote) : Prop :=
  exists before after,
    rs = (before ++ r :: after)%list /\
    default r = true /\
    Forall (fun x => default x = false) before.

Definition NoDefault (rs : list GitRemote) : Prop :=
  Forall (fun x => default x = false) rs.

(** Every remote has a provider, and all providers are named [n]. *)
Definition SharedName (rs : list GitRemote) (n : string) : Prop :=
  Forall (fun x => exists p, provider x = Some p /\ name p = n) rs.

Definition HasProvider (r : GitRemote) : Prop := is_Some (provider r).

(** The resource object after the description switch has run on it. *)
Definition shaAssigned (r : RemoteResource) : RemoteResource :=
  match r with
  | Revision fileName rsha (Some c) =>
      if isFile c then
        Revision fileName
          (if bool_decide (status c = Some "D") then previousSha c else Some (sha c))
          (Some c)
      else r
  | _ => r
  end.

(** The heap after the description switch has run on the resource at [l]. *)
Definition afterDescribe (l : Ref) (r : RemoteResource) (h : Heap) : Heap :=
  match r with
  | Revision _ _ (Some c) =>
      if isFile c
      then {| resources := <[l := shaAssigned r]> (resources h); arrays := arrays h |}
      else h
  | _ => h
  end.

(** The frame as the specification words it: nothing changes, except that the
    [sha] of a [Revision] whose commit indicates deletion becomes the commit's
    previous sha. *)
Definition FrameAsSpecified (h h' : Heap) (resource : Ref) : Prop :=
  arrays h' = arrays h /\
  (forall l, l <> resource -> resources h' !! l = resources h !! l) /\
  resources h' !! resource =
    match resources h !! resource with
    | Some (Revision fileName rsha (Some c)) =>
        if bool_decide (status c = Some "D")
        then Some (Revision fileName (previousSha c) (Some c))
        else Some (Revision fileName rsha (Some c))
    | o => o
    end.

(** Exclusion as the specification words it: [show] presents its items, and
    no presented per-remote item belongs to a remote without a provider. *)
Definition SilentlyExcluded `{Externals} (remotes : Ref) (placeHolder : string)
    (resource : Ref) (clipboard : option bool)
    (goBackCommand : option CommandQuickPickItem) (h : Heap) : Prop :=
  exists items options k h',
    show remotes placeHolder resource clipboard goBackCommand h =
      (ShowQuickPick items options k, h') /\
    forall i, RemoteEntry i ∈ items -> HasProvider (this_remote i).

(** The optional back-navigation entry, as a list. *)
Definition goBackEntry (goBackCommand : option CommandQuickPickItem)
    : list QuickPickEntry :=
  match goBackCommand with
  | Some g => [CommandEntry g]
  | None => []
  end.

(** [e] is a per-remote entry built for [r] with the given resource and
    clipboard intent. *)
Definition EntryOf (resource : Ref) (clipboard_ : option bool)
    (r : GitRemote) (e : QuickPickEntry) : Prop :=
  exists i,
    e = RemoteEntry i /\
    this_remote i = r /\ this_resource i = resource /\ clipboard i = clipboard_.

(** ** Properties *)

Ltac run :=
  unfold mbind, mret, M_bind, M_ret, Outcome_bind, Outcome_ret, lift,
    readResource, readRemotes, writeResource, deref in *; simpl in *.

#[local] Arguments String.append : simpl never.

(** *** Strings *)

Lemma append_assoc (a b c : string) : (a +:+ b) +:+ c = a +:+ b +:+ c.
Proof.
  unfold String.app. induction a as [|x a IH]; simpl; [done | by rewrite IH].
Qed.

Lemma append_nil_r (a : string) : a +:+ "" = a.
Proof.
  unfold String.app. induction a as [|x a IH]; simpl; [done | by rewrite IH].
Qed.

Lemma Contains_refl (n : string) : Contains n n.
Proof. exists "", "". by rewrite append_nil_r. Qed.

Lemma Contains_prefix (n post : string) : Contains n (n +:+ post).
Proof. by exists "", post. Qed.

Lemma Contains_append_r (n pre s : string) : Contains n s -> Contains n (pre +:+ s).
Proof.
  intros (a & b & ->). exists (pre +:+ a), b. by rewrite append_assoc.
Qed.

Lemma EndsWith_refl (x : string) : EndsWith x x.
Proof. by exists "". Qed.

Lemma EndsWith_append (x pre s : string) : EndsWith x s -> EndsWith x (pre +:+ s).
Proof. intros (a & ->). exists (pre +:+ a). by rewrite append_assoc. Qed.

Ltac substring :=
  repeat first
    [ apply Contains_refl | apply Contains_prefix | apply Contains_append_r
    | apply EndsWith_refl | apply EndsWith_append ].

(** *** Selection of the remote *)

Lemma find_default_first (rs : list GitRemote) (r : GitRemote) :
  find default rs = Some r <-> FirstDefault rs r.
Proof.
  induction rs as [|x xs IH]; simpl.
  - split; [discriminate|].
    intros (before & after & E & _). destruct before; discriminate.
  - destruct (default x) eqn:D.
    + split.
      * intros [= ->]. exists [], xs. repeat split; auto.
      * intros (before & after & E & Dr & Hb).
        destruct before as [|b bs]; simpl in E.
        -- congruence.
        -- injection E as -> _. inversion Hb; congruence.
    + rewrite IH. split.
      * intros (before & after & -> & Dr & Hb).
        exists (x :: before), after. repeat split; auto.
      * intros (before & after & E & Dr & Hb).
        destruct before as [|b bs]; simpl in E.
        -- congruence.
        -- injection E as -> ->. inversion Hb; subst.
           exists bs, after. repeat split; auto.
Qed.

Lemma find_default_none (rs : list GitRemote) :
  find default rs = None <-> NoDefault rs.
Proof.
  unfold NoDefault. induction rs as [|x xs IH]; simpl.
  - split; auto.
  - destruct (default x) eqn:D.
    + split; [discriminate|]. intros Hf. inversion Hf; congruence.
    + rewrite IH. split.
      * intros Hf. constructor; auto.
      * intros Hf. inversion Hf; auto.
Qed.

Lemma selectRemote_many (rs : list GitRemote) :
  length rs > 1 -> selectRemote rs = find default rs.
Proof.
  intros Hl. unfold selectRemote.
  destruct (Nat.ltb_spec 1 (length rs)); [reflexivity | lia].
Qed.

Lemma selectRemote_single (r : GitRemote) : selectRemote [r] = Some r.
Proof. reflexivity. Qed.

(** C1. With more than one remote the selected remote is the first one, in
    list order, whose [default] flag is set, and none is selected when no
    remote is flagged; with exactly one remote that remote is selected,
    whatever its flag. *)
Theorem selectRemote_first_default_or_single (rs : list GitRemote) :
  (length rs > 1 ->
     (forall r, selectRemote rs = Some r <-> FirstDefault rs r) /\
     (selectRemote rs = None <-> NoDefault rs)) /\
  (forall r, rs = [r] -> selectRemote rs = Some r).
Proof.
  split.
  - intros Hl. rewrite selectRemote_many by done. split.
    + intros r. apply find_default_first.
    + apply find_default_none.
  - intros r ->. apply selectRemote_single.
Qed.

(** *** The description switch *)

Lemma afterDescribe_arrays (l : Ref) (r : RemoteResource) (h : Heap) :
  arrays (afterDescribe l r h) = arrays h.
Proof. destruct r as [| | | | |f s [c|]|]; simpl; try done. by destruct (isFile c). Qed.

Lemma afterDescribe_other (l l' : Ref) (r : RemoteResource) (h : Heap) :
  l' <> l -> resources (afterDescribe l r h) !! l' = resources h !! l'.
Proof.
  intros Hne. destruct r as [| | | | |f s [c|]|]; simpl; try done.
  destruct (isFile c); simpl; [|done]. by rewrite lookup_insert_ne.
Qed.

Lemma afterDescribe_self (l : Ref) (r : RemoteResource) (h : Heap) :
  resources h !! l = Some r ->
  resources (afterDescribe l r h) !! l = Some (shaAssigned r).
Proof.
  intros Hl. destruct r as [| | | | |f s [c|]|]; simpl; try done.
  destruct (isFile c); simpl; [|done]. by rewrite lookup_insert_eq.
Qed.

Section Description.
Context `{Externals}.

Lemma describe_ok (l : Ref) (r : RemoteResource) (h : Heap) :
  resources h !! l = Some r ->
  exists text, describe l h = (Ok text, afterDescribe l r h).
Proof.
  intros Hl. unfold describe. run. rewrite Hl.
  destruct r as [| | | | |f s [c|]|]; simpl; eauto.
  destruct (isFile c); simpl; eauto.
  case_bool_decide; simpl; eauto.
Qed.

(** C3. For a [Revision] whose commit is a file record: with status ["D"]
    the resource's [sha] becomes the commit's [previousSha] and the text ends
    with the short previous sha followed by a "(deleted in ...)" note that
    holds the short sha; otherwise the resource's [sha] becomes the commit's
    [sha] and the text ends with the commit's short sha. *)
Theorem describe_revision_of_file_commit
    (l : Ref) (h : Heap) (fileName : string) (rsha : option string) (c : GitLogCommit) :
  resources h !! l = Some (Revision fileName rsha (Some c)) ->
  isFile c = true ->
  exists text h',
    describe l h = (Ok text, h') /\
    (status c = Some "D" ->
       resources h' !! l = Some (Revision fileName (previousSha c) (Some c)) /\
       EndsWith (tpl (previousShortSha c) +:+ " (deleted in " +:+ GlyphChars_Space +:+
                 "$(git-commit) " +:+ shortSha c +:+ ")") text /\
       (forall p, previousShortSha c = Some p -> Contains p text) /\
       Contains (shortSha c) text) /\
    (status c <> Some "D" ->
       resources h' !! l = Some (Revision fileName (Some (sha c)) (Some c)) /\
       EndsWith (shortSha c) text /\
       Contains (shortSha c) text).
Proof.
  intros Hl Hf. unfold describe. run. rewrite Hl. simpl. rewrite Hf.
  case_bool_decide as Hd; simpl; eexists _, _; (split; [reflexivity|]);
    split; intros Hs; try done; simpl; rewrite lookup_insert_eq.
  - repeat split; [substring | | substring].
    intros p ->. simpl. substring.
  - repeat split; substring.
Qed.

(** C7. The description switch is total: for every resource object it
    returns a text and does not throw, whatever the variant and whether or
    not the optional [sha] and [commit] are there; for an unrecognised
    [type] the text is empty. *)
Theorem describe_total (l : Ref) (h : Heap) (r : RemoteResource) :
  resources h !! l = Some r ->
  exists text h',
    describe l h = (Ok text, h') /\
    (forall t, r = Other t -> text = "" /\ h' = h).
Proof.
  intros Hl. unfold describe. run. rewrite Hl.
  destruct r as [| | | | |f s [c|]|]; simpl;
    try (eexists _, _; split; [reflexivity | intros; done]).
  destruct (isFile c); [case_bool_decide|]; simpl;
    eexists _, _; (split; [reflexivity | intros; done]).
Qed.

End Description.

(** *** The consolidated item *)

Lemma sameProvider_head (rm : GitRemote) (q : RemoteProvider) (x : GitRemote) :
  provider rm = Some q ->
  sameProvider (Some rm) x =
    Ok (from_option (fun p => String.eqb (name p) (name q)) false (provider x)).
Proof.
  intros Hq. unfold sameProvider. destruct (provider x); [|done].
  run. by rewrite Hq.
Qed.

Lemma every_shared (rm : GitRemote) (q : RemoteProvider) (l : list GitRemote) :
  provider rm = Some q ->
  exists b, every (sameProvider (Some rm)) l = Ok b /\
            (b = true <-> SharedName l (name q)).
Proof.
  intros Hq. unfold SharedName. induction l as [|x xs (b & Hb & IH)].
  - exists true. split; [done|]. split; [constructor | done].
  - cbn [every]. rewrite (sameProvider_head rm q x Hq).
    destruct (provider x) as [p|] eqn:Hp; cbn.
    + destruct (String.eqb_spec (name p) (name q)) as [E|E].
      * exists b. split; [done|]. rewrite IH. split.
        -- intros Hf. constructor; eauto.
        -- intros Hf. by inversion Hf.
      * exists false. split; [done|]. split; [done|].
        intros Hf. inversion Hf as [|? ? (p' & Hp' & E') _]; subst. congruence.
    + exists false. split; [done|]. split; [done|].
      intros Hf. inversion Hf as [|? ? (p' & Hp' & E') _]; subst. congruence.
Qed.

Lemma every_bare_head (rm : GitRemote) (xs : list GitRemote) :
  provider rm = None -> every (sameProvider (Some rm)) (rm :: xs) = Ok false.
Proof. intros Hq. simpl. unfold sameProvider. by rewrite Hq. Qed.

(** The display name of the no-selection branch, for a non-empty list. *)
Lemma every_head (first : GitRemote) (xs : list GitRemote) :
  exists same,
    every (sameProvider (Some first)) (first :: xs) = Ok same /\
    (forall n, SharedName (first :: xs) n ->
       (if same then from_option name "Remote" (provider first) else "Remote") = n) /\
    ((forall n, ~ SharedName (first :: xs) n) ->
       (if same then from_option name "Remote" (provider first) else "Remote") = "Remote") /\
    (provider first = None -> same = false).
Proof.
  destruct (provider first) as [q|] eqn:Hq.
  - destruct (every_shared first q (first :: xs) Hq) as (b & Hb & Hs).
    exists b. split; [done|]. split; [|split; [|done]].
    + intros n Hn.
      assert (n = name q) as ->.
      { inversion Hn as [|? ? (p & Hp & <-) _]. congruence. }
      apply Hs in Hn. by subst b.
    + intros Hn. destruct b; [|done]. destruct (Hn (name q)). by apply Hs.
  - exists false. split; [by apply every_bare_head|].
    split; [|done]. intros n Hn.
    inversion Hn as [|? ? (p & Hp & _) _]. congruence.
Qed.

Lemma describe_text (l : Ref) (h1 h2 : Heap) `{Externals} :
  resources h1 = resources h2 -> fst (describe l h1) = fst (describe l h2).
Proof.
  intros E. unfold describe. run. rewrite E.
  destruct (resources h2 !! l) as [r|]; [|done].
  destruct r as [| | | | |f s [c|]|]; simpl; try done.
  destruct (isFile c); [case_bool_decide|]; done.
Qed.

Section ConsolidatedProperties.
Context `{Externals}.

(** The constructor up to its branch on the selected remote. *)
Lemma consolidated_steps (remotes resource : Ref) (goBack : option CommandQuickPickItem)
    (h : Heap) (r : RemoteResource) (rs : list GitRemote) :
  resources h !! resource = Some r ->
  arrays h !! remotes = Some rs ->
  exists text,
    describe resource h = (Ok text, afterDescribe resource r h) /\
    OpenRemotesCommandQuickPickItem remotes resource goBack h =
      match selectRemote rs with
      | Some remote =>
          match provider remote with
          | Some p =>
              (Ok (QuickPickItem
                     ("$(link-external) Open " +:+ getNameFromRemoteResource r +:+
                      " on " +:+ name p)
                     (Strings_pad GlyphChars_Dash 2 3 +:+ " $(repo) " +:+ path p +:+
                      " " +:+ Strings_pad GlyphChars_Dot 1 1 +:+ " " +:+ text)
                     (Some OpenInRemote)
                     (Some [None; Some (CommandArgs remotes resource goBack)])),
               afterDescribe resource r h)
          | None => (Throw TypeError, afterDescribe resource r h)
          end
      | None =>
          match rs with
          | [] => (Throw TypeError, afterDescribe resource r h)
          | first :: _ =>
              match every (sameProvider (Some first)) rs with
              | Ok same =>
                  (Ok (QuickPickItem
                         ("$(link-external) Open " +:+ getNameFromRemoteResource r +:+
                          " on " +:+
                          (if same then from_option name "Remote" (provider first)
                           else "Remote") +:+
                          GlyphChars_Ellipsis)
                         (Strings_pad GlyphChars_Dash 2 3 +:+ " " +:+ text)
                         (Some OpenInRemote)
                         (Some [None; Some (CommandArgs remotes resource goBack)])),
                   afterDescribe resource r h)
              | Throw e => (Throw e, afterDescribe resource r h)
              end
          end
      end.
Proof.
  intros Hl Ha. destruct (describe_ok resource r h Hl) as [text Hd].
  exists text. split; [done|].
  unfold OpenRemotesCommandQuickPickItem.
  unfold mbind at 1, M_bind at 1, readResource at 1. rewrite Hl. simpl.
  unfold mbind at 1, M_bind at 1. rewrite Hd.
  unfold mbind at 1, M_bind at 1, readRemotes at 1.
  rewrite afterDescribe_arrays, Ha. simpl.
  destruct (selectRemote rs) as [remote|] eqn:Hs.
  - run. by destruct (provider remote).
  - destruct rs as [|first xs].
    + by run.
    + change ((first :: xs) !! 0) with (Some first).
      destruct (provider first) as [q|] eqn:Hq.
      * destruct (every_shared first q (first :: xs) Hq) as (b & Hb & _).
        rewrite Hb. run. rewrite Hq. by destruct b.
      * rewrite (every_bare_head first xs Hq). by run.
Qed.

Lemma consolidated_heap (remotes resource : Ref) (goBack : option CommandQuickPickItem)
    (h : Heap) (r : RemoteResource) :
  resources h !! resource = Some r ->
  snd (OpenRemotesCommandQuickPickItem remotes resource goBack h) =
    afterDescribe resource r h.
Proof.
  intros Hl. destruct (arrays h !! remotes) as [rs|] eqn:Ha.
  - destruct (consolidated_steps remotes resource goBack h r rs Hl Ha) as (text & _ & ->).
    destruct (selectRemote rs) as [rm|].
    + by destruct (provider rm).
    + destruct rs as [|first xs]; [done|].
      by destruct (every (sameProvider (Some first)) (first :: xs)).
  - destruct (describe_ok resource r h Hl) as [text Hd].
    unfold OpenRemotesCommandQuickPickItem.
    unfold mbind at 1, M_bind at 1, readResource at 1. rewrite Hl. simpl.
    unfold mbind at 1, M_bind at 1. rewrite Hd.
    unfold mbind at 1, M_bind at 1, readRemotes at 1.
    by rewrite afterDescribe_arrays, Ha.
Qed.

Lemma consolidated_dangling (remotes resource : Ref)
    (goBack : option CommandQuickPickItem) (h : Heap) :
  resources h !! resource = None ->
  OpenRemotesCommandQuickPickItem remotes resource goBack h = (Throw TypeError, h).
Proof.
  intros Hl. unfold OpenRemotesCommandQuickPickItem.
  unfold mbind at 1, M_bind at 1, readResource at 1. by rewrite Hl.
Qed.

(** C2. With more than one remote and none flagged default, the item is
    built; its label names the shared provider name when every remote has a
    provider of that name and "Remote" when there is no such name; the label
    ends with the ellipsis glyph; the description is the separator followed by
    the description text, and it is the same for every other such list of
    remotes, so that no provider path enters it. *)
Theorem consolidated_without_default (remotes resource : Ref)
    (goBack : option CommandQuickPickItem) (h : Heap)
    (r : RemoteResource) (rs : list GitRemote) :
  resources h !! resource = Some r ->
  arrays h !! remotes = Some rs ->
  length rs > 1 ->
  NoDefault rs ->
  exists item text h',
    OpenRemotesCommandQuickPickItem remotes resource goBack h = (Ok item, h') /\
    describe resource h = (Ok text, h') /\
    (forall n, SharedName rs n ->
       label item = "$(link-external) Open " +:+ getNameFromRemoteResource r +:+
                    " on " +:+ n +:+ GlyphChars_Ellipsis) /\
    ((forall n, ~ SharedName rs n) ->
       label item = "$(link-external) Open " +:+ getNameFromRemoteResource r +:+
                    " on " +:+ "Remote" +:+ GlyphChars_Ellipsis) /\
    EndsWith GlyphChars_Ellipsis (label item) /\
    description item = Strings_pad GlyphChars_Dash 2 3 +:+ " " +:+ text /\
    (forall rs' item' h'',
       length rs' > 1 -> NoDefault rs' ->
       OpenRemotesCommandQuickPickItem remotes resource goBack
         {| resources := resources h; arrays := <[remotes := rs']> (arrays h) |} =
         (Ok item', h'') ->
       description item' = description item).
Proof.
  intros Hl Ha Hn Hd.
  destruct (consolidated_steps remotes resource goBack h r rs Hl Ha) as (text & Ht & Hc).
  assert (selectRemote rs = None) as Hs.
  { rewrite selectRemote_many by done. by apply find_default_none. }
  rewrite Hs in Hc. destruct rs as [|first xs]; [simpl in Hn; lia|].
  destruct (every_head first xs) as (same & He & Hshared & Hnone & _).
  rewrite He in Hc. eexists _, text, _. split; [exact Hc|]. split; [exact Ht|].
  cbn [label description]. repeat split.
  - intros n Hsn. by rewrite (Hshared n Hsn).
  - intros Hsn. by rewrite (Hnone Hsn).
  - substring.
  - intros rs' item' h'' Hn' Hd' Hc'.
    set (h2 := {| resources := resources h; arrays := <[remotes := rs']> (arrays h) |}) in *.
    assert (resources h2 !! resource = Some r) as Hl2 by done.
    assert (arrays h2 !! remotes = Some rs') as Ha2 by apply lookup_insert_eq.
    destruct (consolidated_steps remotes resource goBack h2 r rs' Hl2 Ha2)
      as (text' & Ht' & Hc2).
    assert (text' = text) as ->.
    { pose proof (describe_text resource h2 h eq_refl) as E.
      rewrite Ht', Ht in E. by injection E. }
    assert (selectRemote rs' = None) as Hs'.
    { rewrite selectRemote_many by done. by apply find_default_none. }
    rewrite Hs' in Hc2. destruct rs' as [|first' xs']; [simpl in Hn'; lia|].
    destruct (every_head first' xs') as (same' & He' & _).
    rewrite He' in Hc2. rewrite Hc2 in Hc'. by injection Hc' as <- _.
Qed.

(** C6. When a remote is selected and has a provider, the label is the
    glyph, "Open", the resource name, "on" and that provider's name, and the
    description holds the provider's path followed by the dot separator and
    the description text.  Whichever branch builds the item, it is bound to
    [Commands.OpenInRemote] with the payload [[undefined, commandArgs]], whose
    [remotes] is the caller's whole array, whose [resource] is the caller's
    resource object and whose [goBackCommand] is the one given. *)
Theorem consolidated_with_selected_remote (remotes resource : Ref)
    (goBack : option CommandQuickPickItem) (h : Heap)
    (r : RemoteResource) (rs : list GitRemote) :
  resources h !! resource = Some r ->
  arrays h !! remotes = Some rs ->
  (forall rm p, selectRemote rs = Some rm -> provider rm = Some p ->
     exists item text h',
       OpenRemotesCommandQuickPickItem remotes resource goBack h = (Ok item, h') /\
       describe resource h = (Ok text, h') /\
       label item = "$(link-external) Open " +:+ getNameFromRemoteResource r +:+
                    " on " +:+ name p /\
       description item =
         Strings_pad GlyphChars_Dash 2 3 +:+ " $(repo) " +:+ path p +:+ " " +:+
         Strings_pad GlyphChars_Dot 1 1 +:+ " " +:+ text) /\
  (selectRemote rs = None -> rs <> [] ->
     exists item h',
       OpenRemotesCommandQuickPickItem remotes resource goBack h = (Ok item, h')) /\
  (forall item h',
     OpenRemotesCommandQuickPickItem remotes resource goBack h = (Ok item, h') ->
     command item = Some OpenInRemote /\
     args item = Some [None; Some (CommandArgs remotes resource goBack)] /\
     arrays h' !! remotes = Some rs /\
     resources h' !! resource = Some (shaAssigned r)).
Proof.
  intros Hl Ha.
  destruct (consolidated_steps remotes resource goBack h r rs Hl Ha) as (text & Ht & Hc).
  split; [|split].
  - intros rm p Hs Hp. rewrite Hs, Hp in Hc. by eexists _, text, _.
  - intros Hs Hne. rewrite Hs in Hc. destruct rs as [|first xs]; [done|].
    destruct (every_head first xs) as (same & He & _). rewrite He in Hc. eauto.
  - intros item h' Hok. rewrite Hok in Hc.
    assert (h' = afterDescribe resource r h /\
            command item = Some OpenInRemote /\
            args item = Some [None; Some (CommandArgs remotes resource goBack)])
      as (-> & Hcmd & Hargs).
    { destruct (selectRemote rs) as [rm|].
      - destruct (provider rm); [|done]. by injection Hc as -> ->.
      - destruct rs as [|first xs]; [done|].
        destruct (every (sameProvider (Some first)) (first :: xs)); [|done].
        by injection Hc as -> ->. }
    repeat split; [done | done | by rewrite afterDescribe_arrays |].
    by apply afterDescribe_self.
Qed.

(** C4, amended.  The constructor leaves every remote array and every other
    resource object as they were; of the resource it is given it changes at
    most [sha], and only for a [Revision] whose commit is a file record: to
    the commit's [previousSha] when the status is ["D"], to the commit's [sha]
    otherwise. *)
Theorem consolidated_frame (remotes resource : Ref)
    (goBack : option CommandQuickPickItem) (h : Heap) :
  let h' := snd (OpenRemotesCommandQuickPickItem remotes resource goBack h) in
  arrays h' = arrays h /\
  (forall l, l <> resource -> resources h' !! l = resources h !! l) /\
  resources h' !! resource = shaAssigned <$> resources h !! resource.
Proof.
  destruct (resources h !! resource) as [r|] eqn:Hl; cbn zeta.
  - rewrite (consolidated_heap remotes resource goBack h r Hl).
    split; [apply afterDescribe_arrays|]. split.
    + intros l Hne. by apply afterDescribe_other.
    + by apply afterDescribe_self.
  - rewrite (consolidated_dangling remotes resource goBack h Hl). by cbn.
Qed.

(** C10, amended.  The constructor throws exactly when the list of remotes
    is empty ([remotes[0]] is [undefined]) or the selected remote has no
    provider.  With no remote selected and a first remote without a provider
    it does not throw: the guard of the [every] callback answers [false] and
    the label says "Remote". *)
Theorem consolidated_faults (remotes resource : Ref)
    (goBack : option CommandQuickPickItem) (h : Heap)
    (r : RemoteResource) (rs : list GitRemote) :
  resources h !! resource = Some r ->
  arrays h !! remotes = Some rs ->
  ((exists e, fst (OpenRemotesCommandQuickPickItem remotes resource goBack h) = Throw e) <->
   rs = [] \/ exists rm, selectRemote rs = Some rm /\ provider rm = None) /\
  (forall first rest,
     rs = first :: rest -> selectRemote rs = None -> provider first = None ->
     exists item,
       fst (OpenRemotesCommandQuickPickItem remotes resource goBack h) = Ok item /\
       label item = "$(link-external) Open " +:+ getNameFromRemoteResource r +:+
                    " on " +:+ "Remote" +:+ GlyphChars_Ellipsis).
Proof.
  intros Hl Ha.
  destruct (consolidated_steps remotes resource goBack h r rs Hl Ha) as (text & Ht & Hc).
  rewrite Hc. clear Hc. split.
  - destruct (selectRemote rs) as [rm|] eqn:Hs.
    + destruct (provider rm) as [p|] eqn:Hp; cbn.
      * split; [by intros [e He]|].
        intros [-> | (rm' & [= <-] & Hp')]; [done | congruence].
      * split; eauto.
    + destruct rs as [|first xs].
      * cbn. split; eauto.
      * destruct (every_head first xs) as (same & He & _). rewrite He. cbn.
        split; [by intros [e Hthrow]|]. by intros [? | (rm & ? & _)].
  - intros first rest -> Hs Hp. rewrite Hs.
    destruct (every_head first rest) as (same & He & _ & _ & Hbare).
    rewrite He, (Hbare Hp). eexists. split; reflexivity.
Qed.

End ConsolidatedProperties.

(** *** The per-remote items and the session *)

Section SessionProperties.
Context `{Externals}.

Lemma entryFor_ok (resource : Ref) (clipboard : option bool) (rm : GitRemote)
    (h : Heap) (r : RemoteResource) :
  resources h !! resource = Some r ->
  HasProvider rm ->
  exists e, entryFor resource clipboard rm h = (Ok e, h) /\
            EntryOf resource clipboard rm e.
Proof.
  intros Hl [p Hp]. unfold entryFor, new_OpenRemoteCommandQuickPickItem. run.
  rewrite Hl, Hp. simpl.
  destruct (isTrue clipboard); simpl; eexists; (split; [reflexivity|]);
    eexists; repeat split.
Qed.

Lemma entryFor_bare (resource : Ref) (clipboard : option bool) (rm : GitRemote)
    (h : Heap) :
  provider rm = None ->
  entryFor resource clipboard rm h = (Throw TypeError, h).
Proof.
  intros Hp. unfold entryFor, new_OpenRemoteCommandQuickPickItem. run.
  rewrite Hp. destruct (resources h !! resource); [|done].
  by destruct (isTrue clipboard).
Qed.

Lemma entryFor_inv (resource : Ref) (clipboard : option bool) (rm : GitRemote)
    (h h' : Heap) (e : QuickPickEntry) :
  entryFor resource clipboard rm h = (Ok e, h') ->
  h' = h /\ HasProvider rm /\ EntryOf resource clipboard rm e.
Proof.
  intros He. destruct (provider rm) as [p|] eqn:Hp.
  - destruct (resources h !! resource) as [r|] eqn:Hl.
    + destruct (entryFor_ok resource clipboard rm h r Hl) as (e' & He' & Hof).
      { by exists p. }
      rewrite He' in He. injection He as <- <-. repeat split; [by exists p | done].
    + unfold entryFor, new_OpenRemoteCommandQuickPickItem in He. run.
      by rewrite Hl in He.
  - by rewrite entryFor_bare in He.
Qed.

Lemma mapM_entries_ok (resource : Ref) (clipboard : option bool)
    (rs : list GitRemote) (h : Heap) (r : RemoteResource) :
  resources h !! resource = Some r ->
  Forall HasProvider rs ->
  exists entries,
    mapM (entryFor resource clipboard) rs h = (Ok entries, h) /\
    Forall2 (EntryOf resource clipboard) rs entries.
Proof.
  intros Hl Hall. induction Hall as [|x xs Hx Hxs (entries & Hm & Hf)].
  - exists []. split; [done | constructor].
  - destruct (entryFor_ok resource clipboard x h r Hl Hx) as (e & He & Hof).
    exists (e :: entries). split; [|by constructor].
    cbn [mapM]. unfold mbind at 1, M_bind at 1. rewrite He.
    unfold mbind at 1, M_bind at 1. by rewrite Hm.
Qed.

Lemma mapM_entries_inv (resource : Ref) (clipboard : option bool)
    (rs : list GitRemote) (h h' : Heap) (entries : list QuickPickEntry) :
  mapM (entryFor resource clipboard) rs h = (Ok entries, h') ->
  h' = h /\ Forall HasProvider rs /\ Forall2 (EntryOf resource clipboard) rs entries.
Proof.
  revert entries h'. induction rs as [|x xs IH]; intros entries h' Hm.
  - injection Hm as <- <-. repeat split; constructor.
  - cbn [mapM] in Hm. unfold mbind at 1, M_bind at 1 in Hm.
    destruct (entryFor resource clipboard x h) as [[e|err] h1] eqn:He; [|done].
    apply entryFor_inv in He as (-> & Hx & Hof).
    unfold mbind at 1, M_bind at 1 in Hm.
    destruct (mapM (entryFor resource clipboard) xs h) as [[es|err] h2] eqn:Hxs; [|done].
    destruct (IH es h2 eq_refl) as (-> & Hall & Hf).
    injection Hm as <- <-. repeat split; by constructor.
Qed.

Lemma mapM_entries_heap (resource : Ref) (clipboard : option bool)
    (rs : list GitRemote) (h : Heap) :
  snd (mapM (entryFor resource clipboard) rs h) = h.
Proof.
  induction rs as [|x xs IH]; [done|].
  cbn [mapM]. unfold mbind at 1, M_bind at 1.
  destruct (entryFor resource clipboard x h) as [[e|err] h1] eqn:He.
  - apply entryFor_inv in He as (-> & _).
    unfold mbind at 1, M_bind at 1.
    by destruct (mapM (entryFor resource clipboard) xs h) as [[es|err] h2].
  - destruct (provider x) as [p|] eqn:Hp.
    + unfold entryFor, new_OpenRemoteCommandQuickPickItem in He. run.
      rewrite Hp in He. destruct (resources h !! resource).
      * destruct (isTrue clipboard); by simplify_eq.
      * by simplify_eq.
    + rewrite entryFor_bare in He by done. by simplify_eq.
Qed.

(** [show] in terms of the entries of its [map]. *)
Lemma show_steps (remotes : Ref) (placeHolder : string) (resource : Ref)
    (clipboard : option bool) (goBack : option CommandQuickPickItem)
    (h : Heap) (rs : list GitRemote) :
  arrays h !! remotes = Some rs ->
  show remotes placeHolder resource clipboard goBack h =
    match mapM (entryFor resource clipboard) rs h with
    | (Throw e, h') => (Rejected e, h')
    | (Ok entries, h') =>
        (ShowQuickPick (withGoBack goBack entries)
           {| placeHolder := placeHolder;
              ignoreFocusOut := getQuickPickIgnoreFocusOut |}
           (fun pick =>
              match pick with
              | None => Resolved None
              | Some p => Resolved (Some p)
              end),
         h')
    end.
Proof.
  intros Ha. unfold show. unfold mbind at 1, M_bind at 1, readRemotes.
  rewrite Ha. reflexivity.
Qed.

Lemma show_dangling (remotes : Ref) (placeHolder : string) (resource : Ref)
    (clipboard : option bool) (goBack : option CommandQuickPickItem) (h : Heap) :
  arrays h !! remotes = None ->
  show remotes placeHolder resource clipboard goBack h = (Rejected TypeError, h).
Proof.
  intros Ha. unfold show. unfold mbind at 1, M_bind at 1, readRemotes.
  by rewrite Ha.
Qed.

Lemma withGoBack_app (goBack : option CommandQuickPickItem)
    (entries : list QuickPickEntry) :
  withGoBack goBack entries = (goBackEntry goBack ++ entries)%list.
Proof. by destruct goBack. Qed.

(** Executing a per-remote item calls its provider once: [copy] under the
    clipboard intent, [open] otherwise. *)
Lemma execute_calls_provider (i : OpenRemoteCommandQuickPickItem) (p : RemoteProvider)
    (pick : list QuickPickEntry -> option QuickPickEntry)
    (answer : ProviderCall -> option unit) :
  provider (this_remote i) = Some p ->
  providerCalls pick answer (execute i) =
    [if isTrue (clipboard i)
     then ProviderCopy p (this_resource i)
     else ProviderOpen p (this_resource i)].
Proof.
  intros Hp. unfold execute. rewrite Hp. by destruct (isTrue (clipboard i)).
Qed.

(** C5, amended.  [show] filters nothing.  When every remote has a provider
    it presents one item per remote; when some remote has no provider the
    promise is rejected with the [TypeError] of reading [provider.name] and
    nothing is presented.  So no presented per-remote item belongs to a remote
    without a provider, by failure and not by silent exclusion. *)
Theorem show_rejects_bare_remote (remotes : Ref) (placeHolder : string)
    (resource : Ref) (clipboard : option bool)
    (goBack : option CommandQuickPickItem) (h : Heap)
    (r : RemoteResource) (rs : list GitRemote) :
  arrays h !! remotes = Some rs ->
  resources h !! resource = Some r ->
  (Forall HasProvider rs ->
     exists entries options k,
       show remotes placeHolder resource clipboard goBack h =
         (ShowQuickPick (withGoBack goBack entries) options k, h) /\
       Forall2 (EntryOf resource clipboard) rs entries) /\
  (~ Forall HasProvider rs ->
     show remotes placeHolder resource clipboard goBack h = (Rejected TypeError, h)) /\
  (forall items options k h',
     show remotes placeHolder resource clipboard goBack h =
       (ShowQuickPick items options k, h') ->
     forall i, RemoteEntry i ∈ items -> HasProvider (this_remote i)).
Proof.
  intros Ha Hl. rewrite (show_steps _ _ _ _ _ _ rs Ha). split; [|split].
  - intros Hall.
    destruct (mapM_entries_ok resource clipboard rs h r Hl Hall) as (entries & -> & Hf).
    by eexists entries, _, _.
  - intros Hnot.
    destruct (mapM (entryFor resource clipboard) rs h) as [[entries|[]] h1] eqn:Hm.
    + apply mapM_entries_inv in Hm as (_ & Hall & _). done.
    + pose proof (mapM_entries_heap resource clipboard rs h) as Hh.
      rewrite Hm in Hh. simpl in Hh. by subst h1.
  - intros items options k h' Hshow i Hin.
    destruct (mapM (entryFor resource clipboard) rs h) as [[entries|err] h1] eqn:Hm;
      [|done].
    apply mapM_entries_inv in Hm as (_ & Hall & Hf).
    injection Hshow as <- _ _ _.
    rewrite withGoBack_app in Hin. apply elem_of_app in Hin as [Hin|Hin].
    + destruct goBack; simpl in Hin; [|by apply elem_of_nil in Hin].
      apply list_elem_of_singleton in Hin. done.
    + apply list_elem_of_lookup in Hin as [n Hn].
      destruct (Forall2_lookup_r _ _ _ _ _ Hf Hn) as (rm & Hrm & (i' & [= <-] & <- & _)).
      eapply Forall_lookup_1; eauto.
Qed.

(** C8.  Whatever [show] hands to [window.showQuickPick] is the
    back-navigation item, when there is one, followed by one per-remote item
    for each remote, in the order of the remotes; and it does hand such a
    list over, with the place holder and the focus setting, when every remote
    has a provider. *)
Theorem show_items_in_remote_order (remotes : Ref) (placeHolder : string)
    (resource : Ref) (clipboard : option bool)
    (goBack : option CommandQuickPickItem) (h : Heap) (rs : list GitRemote) :
  arrays h !! remotes = Some rs ->
  (forall items options k h',
     show remotes placeHolder resource clipboard goBack h =
       (ShowQuickPick items options k, h') ->
     exists entries,
       items = (goBackEntry goBack ++ entries)%list /\
       Forall2 (EntryOf resource clipboard) rs entries) /\
  (forall r,
     resources h !! resource = Some r ->
     Forall HasProvider rs ->
     exists items k,
       show remotes placeHolder resource clipboard goBack h =
         (ShowQuickPick items
            {| placeHolder := placeHolder;
               ignoreFocusOut := getQuickPickIgnoreFocusOut |} k, h) /\
       length items = length (goBackEntry goBack) + length rs).
Proof.
  intros Ha. rewrite (show_steps _ _ _ _ _ _ rs Ha). split.
  - intros items options k h' Hshow.
    destruct (mapM (entryFor resource clipboard) rs h) as [[entries|err] h1] eqn:Hm;
      [|done].
    apply mapM_entries_inv in Hm as (_ & _ & Hf).
    injection Hshow as <- _ _ _. exists entries. by rewrite withGoBack_app.
  - intros r Hl Hall.
    destruct (mapM_entries_ok resource clipboard rs h r Hl Hall) as (entries & -> & Hf).
    eexists _, _. split; [reflexivity|].
    rewrite withGoBack_app, length_app. by rewrite (Forall2_length _ _ _ Hf).
Qed.

(** C9.  After the quick pick answers, [show] resolves with that answer and
    nothing else: [undefined] exactly when nothing was picked, the picked
    item itself otherwise, a back-navigation item included.  No provider is
    called, so the item is not executed.  When every remote has a provider
    the quick pick is reached and the settled value is its answer. *)
Theorem show_returns_the_pick (remotes : Ref) (placeHolder : string)
    (resource : Ref) (clipboard : option bool)
    (goBack : option CommandQuickPickItem) (h : Heap) :
  (forall items options k h',
     show remotes placeHolder resource clipboard goBack h =
       (ShowQuickPick items options k, h') ->
     forall choice,
       k choice = Resolved choice /\ (k choice = Resolved None <-> choice = None)) /\
  (forall pick answer,
     providerCalls pick answer
       (fst (show remotes placeHolder resource clipboard goBack h)) = []) /\
  (forall rs r,
     arrays h !! remotes = Some rs ->
     resources h !! resource = Some r ->
     Forall HasProvider rs ->
     exists items options k,
       show remotes placeHolder resource clipboard goBack h =
         (ShowQuickPick items options k, h) /\
       forall pick answer,
         settle pick answer
           (fst (show remotes placeHolder resource clipboard goBack h)) =
         Ok (pick items)).
Proof.
  destruct (arrays h !! remotes) as [rs|] eqn:Ha.
  - rewrite (show_steps _ _ _ _ _ _ rs Ha).
    destruct (mapM (entryFor resource clipboard) rs h) as [[entries|err] h1] eqn:Hm.
    + split; [|split].
      * intros items options k h' [= <- <- <- <-] choice.
        destruct choice; split; done.
      * intros pick answer. cbn. by destruct (pick _).
      * intros rs' r [= <-] Hl Hall.
        apply mapM_entries_inv in Hm as (-> & _).
        eexists _, _, _. split; [reflexivity|].
        intros pick answer. cbn. by destruct (pick _).
    + split; [done|]. split; [done|].
      intros rs' r [= <-] Hl Hall.
      destruct (mapM_entries_ok resource clipboard rs h r Hl Hall) as (entries & Hm' & _).
      congruence.
  - rewrite show_dangling by done. split; [done|]. split; [done|]. by intros rs r [=].
Qed.

End SessionProperties.

(** ** Examples on the concrete environment *)

Section Examples.
#[local] Existing Instance specExternals.

(** From [Hd : describe l h = (Ok text, h')] on a concrete heap, the text. *)
Ltac known_text Hd :=
  apply (f_equal fst) in Hd; vm_compute in Hd; injection Hd as <-.

Lemma heapOf_resource (r : RemoteResource) (rs : list GitRemote) :
  resources (heapOf r rs) !! 1%positive = Some r.
Proof. reflexivity. Defined.

Lemma heapOf_remotes (r : RemoteResource) (rs : list GitRemote) :
  arrays (heapOf r rs) !! 2%positive = Some rs.
Proof. reflexivity. Defined.

(** Three remotes, the second and the third flagged: the second is selected;
    a single unflagged remote without a provider is selected too. *)
Lemma selectRemote_first_default_or_single_witness :
  length defaultSecond > 1 /\
  selectRemote defaultSecond = Some (remoteOf "GitLab" "grp/repo" true) /\
  selectRemote [bareRemote false] = Some (bareRemote false).
Proof.
  assert (length defaultSecond > 1) as Hl by (simpl; lia).
  split; [exact Hl|]. split.
  - apply (proj1 (selectRemote_first_default_or_single defaultSecond) Hl).
    exists [remoteOf "GitHub" "org/repo" false], [remoteOf "Bitbucket" "team/repo" true].
    repeat split. repeat constructor.
  - by apply (proj2 (selectRemote_first_default_or_single [bareRemote false])).
Defined.

(** GitHub, GitLab, GitHub, none flagged, a file: the label says "Remote"
    and ends with the ellipsis.  Three times GitHub: the label says "GitHub". *)
Lemma consolidated_without_default_witness :
  resources (heapOf (File "src/app/main.ts") mixedRemotes) !! 1%positive =
    Some (File "src/app/main.ts") /\
  arrays (heapOf (File "src/app/main.ts") mixedRemotes) !! 2%positive =
    Some mixedRemotes /\
  length mixedRemotes > 1 /\
  NoDefault mixedRemotes /\
  (exists item h',
     OpenRemotesCommandQuickPickItem 2 1 None
       (heapOf (File "src/app/main.ts") mixedRemotes) = (Ok item, h') /\
     label item = "$(link-external) Open File on Remote…" /\
     description item = Strings_pad GlyphChars_Dash 2 3 +:+ " $(file-text) main.ts") /\
  (exists item h',
     OpenRemotesCommandQuickPickItem 2 1 None
       (heapOf (File "src/app/main.ts") githubRemotes) = (Ok item, h') /\
     label item = "$(link-external) Open File on GitHub…").
Proof.
  assert (length mixedRemotes > 1) as Hl by (simpl; lia).
  assert (NoDefault mixedRemotes) as Hn by (repeat constructor).
  split; [reflexivity|]. split; [reflexivity|].
  split; [exact Hl|]. split; [exact Hn|]. split.
  - destruct (consolidated_without_default 2 1 None _ _ _
                (heapOf_resource (File "src/app/main.ts") mixedRemotes)
                (heapOf_remotes _ _) Hl Hn)
      as (item & text & h' & Hc & Hd & _ & Hremote & _ & Hdesc & _).
    exists item, h'. split; [exact Hc|]. split.
    + rewrite Hremote; [reflexivity|].
      intros n Hs. inversion Hs as [|? ? (p & Hp & Hname) Hs'].
      inversion Hs' as [|? ? (p' & Hp' & Hname') _]. by simplify_eq/=.
    + rewrite Hdesc. by known_text Hd.
  - assert (length githubRemotes > 1) as Hl' by (simpl; lia).
    assert (NoDefault githubRemotes) as Hn' by (repeat constructor).
    destruct (consolidated_without_default 2 1 None _ _ _
                (heapOf_resource (File "src/app/main.ts") githubRemotes)
                (heapOf_remotes _ _) Hl' Hn')
      as (item & text & h' & Hc & _ & Hshared & _).
    exists item, h'. split; [exact Hc|].
    rewrite (Hshared "GitHub"); [reflexivity|].
    repeat constructor; by eexists.
Defined.

(** A deleted file: [sha] becomes "aaa111" and the text ends with both short
    shas around "(deleted in"; a kept file: [sha] becomes "ccc333". *)
Lemma describe_revision_of_file_commit_witness :
  resources (heapOf deletedRevision []) !! 1%positive = Some deletedRevision /\
  isFile (fileCommit (Some "D") "bbb222" (Some "aaa111")) = true /\
  (exists text h',
     describe 1 (heapOf deletedRevision []) = (Ok text, h') /\
     resources h' !! 1%positive =
       Some (Revision "src/app/main.ts" (Some "aaa111")
               (Some (fileCommit (Some "D") "bbb222" (Some "aaa111")))) /\
     EndsWith ("aaa111 (deleted in " +:+ nbsp +:+ "$(git-commit) bbb222)") text) /\
  (exists text h',
     describe 1 (heapOf keptRevision []) = (Ok text, h') /\
     resources h' !! 1%positive =
       Some (Revision "src/app/main.ts" (Some "ccc333")
               (Some (fileCommit (Some "M") "ccc333" (Some "bbb222")))) /\
     Contains "ccc333" text).
Proof.
  split; [reflexivity|]. split; [reflexivity|]. split.
  - destruct (describe_revision_of_file_commit 1 (heapOf deletedRevision []) _ _ _
                (heapOf_resource deletedRevision []) eq_refl)
      as (text & h' & Hd & Hdel & _).
    destruct (Hdel eq_refl) as (Hsha & Hends & _).
    exists text, h'. split; [exact Hd|]. split; [exact Hsha | exact Hends].
  - destruct (describe_revision_of_file_commit 1 (heapOf keptRevision []) _ _ _
                (heapOf_resource keptRevision []) eq_refl)
      as (text & h' & Hd & _ & Hkept).
    destruct Hkept as (Hsha & _ & Hin); [discriminate|].
    exists text, h'. split; [exact Hd|]. split; [exact Hsha | exact Hin].
Defined.

(** An object of unknown [type], and a [Revision] with neither [sha] nor
    [commit]: a text in both cases, the empty one in the first. *)
Lemma describe_total_witness :
  resources (heapOf (Other "tag") []) !! 1%positive = Some (Other "tag") /\
  describe 1 (heapOf (Other "tag") []) = (Ok "", heapOf (Other "tag") []) /\
  exists text h',
    describe 1 (heapOf (Revision "src/app/main.ts" None None) []) = (Ok text, h').
Proof.
  split; [reflexivity|]. split.
  - destruct (describe_total 1 (heapOf (Other "tag") []) _
                (heapOf_resource (Other "tag") []))
      as (text & h' & Hd & Hother).
    destruct (Hother "tag" eq_refl) as [-> ->]. exact Hd.
  - destruct (describe_total 1 (heapOf (Revision "src/app/main.ts" None None) []) _
                (heapOf_resource _ []))
      as (text & h' & Hd & _).
    by exists text, h'.
Defined.

(** One remote, GitHub at org/repo, and the repository root. *)
Lemma consolidated_with_selected_remote_witness :
  resources (heapOf Repo [remoteOf "GitHub" "org/repo" false]) !! 1%positive =
    Some Repo /\
  arrays (heapOf Repo [remoteOf "GitHub" "org/repo" false]) !! 2%positive =
    Some [remoteOf "GitHub" "org/repo" false] /\
  exists item h',
    OpenRemotesCommandQuickPickItem 2 1 (Some goBackItem)
      (heapOf Repo [remoteOf "GitHub" "org/repo" false]) = (Ok item, h') /\
    label item = "$(link-external) Open Repository on GitHub" /\
    EndsWith ("org/repo " +:+ nbsp +:+ "•" +:+ nbsp +:+ " $(repo) Repository")
      (description item) /\
    command item = Some OpenInRemote /\
    args item = Some [None; Some (CommandArgs 2 1 (Some goBackItem))].
Proof.
  split; [reflexivity|]. split; [reflexivity|].
  destruct (consolidated_with_selected_remote 2 1 (Some goBackItem) _ _ _
              (heapOf_resource Repo [remoteOf "GitHub" "org/repo" false])
              (heapOf_remotes _ _))
    as (Hsel & _ & Hpayload).
  destruct (Hsel (remoteOf "GitHub" "org/repo" false)
              {| name := "GitHub"; path := "org/repo" |} eq_refl eq_refl)
    as (item & text & h' & Hc & Hd & Hlabel & Hdesc).
  destruct (Hpayload item h' Hc) as (Hcmd & Hargs & _).
  exists item, h'. split; [exact Hc|]. split; [exact Hlabel|].
  split; [|split; [exact Hcmd | exact Hargs]].
  rewrite Hdesc. known_text Hd.
  by exists (Strings_pad GlyphChars_Dash 2 3 +:+ " $(repo) ").
Defined.

(** A remote without a provider in second place: the promise is rejected. *)
Lemma show_rejects_bare_remote_witness :
  arrays (heapOf Repo bareSecond) !! 2%positive = Some bareSecond /\
  resources (heapOf Repo bareSecond) !! 1%positive = Some Repo /\
  show 2 "Open on" 1 None None (heapOf Repo bareSecond) =
    (Rejected TypeError, heapOf Repo bareSecond).
Proof.
  split; [reflexivity|]. split; [reflexivity|].
  destruct (show_rejects_bare_remote 2 "Open on" 1 None None _ _ _
              (heapOf_remotes Repo bareSecond) (heapOf_resource _ _))
    as (_ & Hreject & _).
  apply Hreject. intros Hall.
  inversion Hall as [|? ? _ Hrest]. inversion Hrest as [|? ? [p Hp] _].
  discriminate Hp.
Defined.

(** Three remotes behind a back-navigation item. *)
Lemma show_items_in_remote_order_witness :
  arrays (heapOf Repo mixedRemotes) !! 2%positive = Some mixedRemotes /\
  exists entries options k,
    show 2 "Open on" 1 None (Some goBackItem) (heapOf Repo mixedRemotes) =
      (ShowQuickPick (CommandEntry goBackItem :: entries) options k,
       heapOf Repo mixedRemotes) /\
    Forall2 (EntryOf 1 None) mixedRemotes entries.
Proof.
  split; [reflexivity|].
  destruct (show_items_in_remote_order 2 "Open on" 1 None (Some goBackItem) _ _
              (heapOf_remotes Repo mixedRemotes))
    as (Horder & Hpresent).
  destruct (Hpresent Repo (heapOf_resource _ _)) as (items & k & Hshow & _).
  { repeat constructor; by eexists. }
  destruct (Horder _ _ _ _ Hshow) as (entries & -> & Hf).
  eexists entries, _, k. split; [exact Hshow | exact Hf].
Defined.

(** No remote and a back-navigation item: what the quick pick returns is
    what [show] resolves with, the item or [undefined]. *)
Lemma show_returns_the_pick_witness :
  arrays (heapOf Repo []) !! 2%positive = Some [] /\
  resources (heapOf Repo []) !! 1%positive = Some Repo /\
  Forall HasProvider [] /\
  (forall answer,
     settle (fun _ => Some (CommandEntry goBackItem)) answer
       (fst (show 2 "Open on" 1 None (Some goBackItem) (heapOf Repo []))) =
     Ok (Some (CommandEntry goBackItem))) /\
  (forall answer,
     settle (fun _ => None) answer
       (fst (show 2 "Open on" 1 None (Some goBackItem) (heapOf Repo []))) =
     Ok None).
Proof.
  split; [reflexivity|]. split; [reflexivity|].
  split; [constructor|].
  destruct (show_returns_the_pick 2 "Open on" 1 None (Some goBackItem) (heapOf Repo []))
    as (_ & _ & Hsettle).
  destruct (Hsettle [] Repo (heapOf_remotes _ _) (heapOf_resource _ _)
              (List.Forall_nil _))
    as (items & options & k & _ & Hpick).
  split; intros answer; apply Hpick.
Defined.

(** No remote at all: a throw.  A first remote without a provider and no
    default: an item that says "Remote". *)
Lemma consolidated_faults_witness :
  resources (heapOf Repo []) !! 1%positive = Some Repo /\
  arrays (heapOf Repo []) !! 2%positive = Some [] /\
  (exists e, fst (OpenRemotesCommandQuickPickItem 2 1 None (heapOf Repo [])) = Throw e) /\
  exists item,
    fst (OpenRemotesCommandQuickPickItem 2 1 None (heapOf Repo bareFirst)) = Ok item /\
    label item = "$(link-external) Open Repository on Remote…".
Proof.
  split; [reflexivity|]. split; [reflexivity|]. split.
  - apply (proj1 (consolidated_faults 2 1 None _ _ _
                    (heapOf_resource Repo []) (heapOf_remotes _ _))).
    by left.
  - exact (proj2 (consolidated_faults 2 1 None _ _ _
                    (heapOf_resource Repo bareFirst) (heapOf_remotes _ _))
             _ _ eq_refl eq_refl eq_refl).
Defined.

(** *** Where the specification's wording fails *)

(** C4 as worded: a kept file commit is not a deletion, and yet the
    resource's absent [sha] is assigned. *)
Lemma frame_as_specified_fails :
  ~ FrameAsSpecified
      (heapOf keptRevision defaultSecond)
      (snd (OpenRemotesCommandQuickPickItem 2 1 None (heapOf keptRevision defaultSecond)))
      1.
Proof.
  intros (_ & _ & Hres).
  rewrite (consolidated_heap 2 1 None _ keptRevision (heapOf_resource _ _)) in Hres.
  rewrite (afterDescribe_self 1 keptRevision _ (heapOf_resource _ _)) in Hres.
  rewrite heapOf_resource in Hres. discriminate Hres.
Qed.

(** C5 as worded: with a remote without a provider in the list nothing is
    presented at all. *)
Lemma silent_exclusion_fails :
  ~ SilentlyExcluded 2 "Open on" 1 None None (heapOf Repo bareSecond).
Proof.
  intros (items & options & k & h' & Hshow & _).
  rewrite (show_steps 2 "Open on" 1 None None _ bareSecond (heapOf_remotes _ _)) in Hshow.
  cbn [mapM bareSecond] in Hshow.
  unfold mbind at 1, M_bind at 1 in Hshow.
  destruct (entryFor_ok 1 None (remoteOf "GitHub" "org/repo" false)
              (heapOf Repo bareSecond) Repo (heapOf_resource _ _))
    as (e & He & _); [by eexists|].
  rewrite He in Hshow.
  unfold mbind at 1 2, M_bind at 1 2 in Hshow.
  rewrite (entryFor_bare 1 None (bareRemote false)) in Hshow by done.
  discriminate Hshow.
Qed.

(** C10 as worded: with no default and a first remote without a provider
    the constructor does not throw. *)
Lemma bare_first_remote_does_not_fault :
  selectRemote bareFirst = None /\
  provider <$> bareFirst !! 0 = Some None /\
  ~ exists e,
      fst (OpenRemotesCommandQuickPickItem 2 1 None (heapOf Repo bareFirst)) = Throw e.
Proof.
  split; [reflexivity|]. split; [reflexivity|]. intros [e He].
  destruct (consolidated_steps 2 1 None _ Repo bareFirst
              (heapOf_resource _ _) (heapOf_remotes _ _)) as (text & _ & Hc).
  rewrite Hc in He. discriminate He.
Qed.

End Examples.

(** ** Further properties of the code *)

(** *** Selection *)

(** X1.  A selected remote is one of the remotes given; with more than one remote
    it is flagged.  Nothing is selected exactly for the empty list and for a
    list of several remotes none of which is flagged. *)
Theorem selectRemote_member (rs : list GitRemote) :
  (forall r, selectRemote rs = Some r ->
     r ∈ rs /\ (length rs > 1 -> default r = true)) /\
  (selectRemote rs = None <-> rs = [] \/ (length rs > 1 /\ NoDefault rs)).
Proof.
  destruct rs as [|x [|y ys]].
  - split; [done|]. split; auto.
  - split.
    + intros r [= <-]. split; [apply list_elem_of_here | simpl; lia].
    + split; [done|]. intros [? | [Hl _]]; [done | simpl in Hl; lia].
  - assert (length (x :: y :: ys) > 1) as Hl by (simpl; lia).
    rewrite selectRemote_many by done. split.
    + intros r Hf. apply find_some in Hf as [Hin Hd].
      split; [by apply list_elem_of_In | done].
    + rewrite find_default_none. split; [auto|]. by intros [? | [_ ?]].
Qed.

Lemma truthy_nonempty (s : string) : truthy s = true <-> s <> "".
Proof.
  unfold truthy. destruct (String.eqb_spec s ""); simpl; split; intros; congruence.
Qed.

Section FurtherDescription.
Context `{Externals}.

(** The text of the [else] arm of the [Revision] case. *)
Lemma revision_plain_text (fileName : string) (rsha : option string) (text : string) :
  text = "$(file-text) " +:+ paths_basename fileName +:+
         (if truthy match rsha with
                    | None => ""
                    | Some s => GitService_shortenSha s
                    end
          then " in " +:+ GlyphChars_Space +:+ "$(git-commit) " +:+
               match rsha with
               | None => ""
               | Some s => GitService_shortenSha s
               end
          else "") ->
  (rsha = None -> text = "$(file-text) " +:+ paths_basename fileName) /\
  (forall s, rsha = Some s ->
     (GitService_shortenSha s = "" ->
        text = "$(file-text) " +:+ paths_basename fileName) /\
     (GitService_shortenSha s <> "" ->
        text = "$(file-text) " +:+ paths_basename fileName +:+ " in " +:+
               GlyphChars_Space +:+ "$(git-commit) " +:+ GitService_shortenSha s)).
Proof.
  intros ->. destruct rsha as [s|].
  - split; [done|]. intros s' [= <-]. split.
    + intros ->. cbn. by rewrite append_nil_r.
    + intros Hne. apply truthy_nonempty in Hne. by rewrite Hne.
  - split; [|done]. intros _. cbn. by rewrite append_nil_r.
Qed.

(** X2.  A [Revision] without a commit, or with a commit that is not a file
    record: the resource is not written to; the text is the base name,
    followed by the short sha only when there is a [sha] and its short form
    is not empty. *)
Theorem describe_revision_without_file_commit
    (l : Ref) (h : Heap) (fileName : string) (rsha : option string)
    (commit : option GitLogCommit) :
  resources h !! l = Some (Revision fileName rsha commit) ->
  (forall c, commit = Some c -> isFile c = false) ->
  exists text,
    describe l h = (Ok text, h) /\
    (rsha = None -> text = "$(file-text) " +:+ paths_basename fileName) /\
    (forall s, rsha = Some s ->
       (GitService_shortenSha s = "" ->
          text = "$(file-text) " +:+ paths_basename fileName) /\
       (GitService_shortenSha s <> "" ->
          text = "$(file-text) " +:+ paths_basename fileName +:+ " in " +:+
                 GlyphChars_Space +:+ "$(git-commit) " +:+ GitService_shortenSha s)).
Proof.
  intros Hl Hc. unfold describe. run. rewrite Hl. simpl.
  destruct commit as [c|]; [rewrite (Hc c eq_refl)|];
    (eexists; split; [reflexivity | by apply revision_plain_text]).
Qed.

(** X3.  Describing again the resource that a description left behind gives the
    same text and writes nothing new. *)
Theorem describe_idempotent (l : Ref) (h h1 : Heap) (text : string) :
  describe l h = (Ok text, h1) -> describe l h1 = (Ok text, h1).
Proof.
  unfold describe. run.
  destruct (resources h !! l) as [r|] eqn:Hl; [|done]. simpl.
  destruct r as [| | | | |f s [c|]|]; simpl;
    try (intros [= <- <-]; by rewrite Hl).
  destruct (isFile c) eqn:Hf; [|intros [= <- <-]; rewrite Hl; simpl; by rewrite Hf].
  case_bool_decide as Hd; simpl; intros [= <- <-]; simpl;
    rewrite lookup_insert_eq; simpl; rewrite Hf;
    [rewrite (bool_decide_eq_true_2 _ Hd) | rewrite (bool_decide_eq_false_2 _ Hd)];
    simpl; by rewrite insert_insert_eq.
Qed.

End FurtherDescription.

Section FurtherSession.
Context `{Externals}.

(** What the callback of the [map] returns, in full. *)
Lemma entryFor_exact (resource : Ref) (clipboard_ : option bool) (rm : GitRemote)
    (h h' : Heap) (e : QuickPickEntry) :
  entryFor resource clipboard_ rm h = (Ok e, h') ->
  exists r p,
    resources h !! resource = Some r /\
    provider rm = Some p /\
    e = RemoteEntry
          {| base :=
               QuickPickItem
                 (if isTrue clipboard_
                  then "$(link-external) Copy " +:+ getNameFromRemoteResource r +:+
                       " Url to Clipboard from " +:+ name p
                  else "$(link-external) Open " +:+ getNameFromRemoteResource r +:+
                       " on " +:+ name p)
                 (Strings_pad GlyphChars_Dash 2 3 +:+ " $(repo) " +:+ path p)
                 None None;
             this_remote := rm;
             this_resource := resource;
             clipboard := clipboard_ |}.
Proof.
  unfold entryFor, new_OpenRemoteCommandQuickPickItem. run.
  destruct (resources h !! resource) as [r|]; [|done].
  destruct (provider rm) as [p|]; simpl.
  - destruct (isTrue clipboard_); simpl; intros [= <- <-]; by exists r, p.
  - by destruct (isTrue clipboard_).
Qed.

Lemma mapM_entries_exact (resource : Ref) (clipboard_ : option bool)
    (rs : list GitRemote) (h h' : Heap) (entries : list QuickPickEntry) :
  mapM (entryFor resource clipboard_) rs h = (Ok entries, h') ->
  forall n rm, rs !! n = Some rm ->
    exists e, entries !! n = Some e /\ entryFor resource clipboard_ rm h = (Ok e, h).
Proof.
  revert entries h'. induction rs as [|x xs IH]; intros entries h' Hm n rm Hn; [done|].
  cbn [mapM] in Hm. unfold mbind at 1, M_bind at 1 in Hm.
  destruct (entryFor resource clipboard_ x h) as [[e|err] h1] eqn:He; [|done].
  pose proof He as He'. apply entryFor_inv in He' as (-> & _).
  unfold mbind at 1, M_bind at 1 in Hm.
  destruct (mapM (entryFor resource clipboard_) xs h) as [[es|err] h2] eqn:Hxs; [|done].
  injection Hm as <- <-. destruct n as [|n]; simpl in *.
  - injection Hn as <-. by exists e.
  - by apply (IH es h2).
Qed.

(** X4.  The texts of the per-remote items.  In the list handed to the quick
    pick, the item of the [n]-th remote comes after the back-navigation item,
    if there is one; its label says "Copy ... Url to Clipboard from" under a
    true clipboard intent and "Open ... on" otherwise, with the resource name
    and the name of that remote's provider; its description shows that
    provider's path; it has no command and no arguments. *)
Theorem show_item_texts (remotes : Ref) (placeHolder : string)
    (resource : Ref) (clipboard_ : option bool)
    (goBack : option CommandQuickPickItem) (h h' : Heap) (rs : list GitRemote)
    (items : list QuickPickEntry) (options : QuickPickOptions)
    (k : option QuickPickEntry -> Async (option QuickPickEntry)) :
  arrays h !! remotes = Some rs ->
  show remotes placeHolder resource clipboard_ goBack h =
    (ShowQuickPick items options k, h') ->
  forall n rm, rs !! n = Some rm ->
    exists r p,
      resources h !! resource = Some r /\
      provider rm = Some p /\
      items !! (length (goBackEntry goBack) + n) =
        Some (RemoteEntry
                {| base :=
                     QuickPickItem
                       (if isTrue clipboard_
                        then "$(link-external) Copy " +:+
                             getNameFromRemoteResource r +:+
                             " Url to Clipboard from " +:+ name p
                        else "$(link-external) Open " +:+
                             getNameFromRemoteResource r +:+ " on " +:+ name p)
                       (Strings_pad GlyphChars_Dash 2 3 +:+ " $(repo) " +:+ path p)
                       None None;
                   this_remote := rm;
                   this_resource := resource;
                   clipboard := clipboard_ |}).
Proof.
  intros Ha Hshow n rm Hn. rewrite (show_steps _ _ _ _ _ _ rs Ha) in Hshow.
  destruct (mapM (entryFor resource clipboard_) rs h) as [[entries|err] h1] eqn:Hm;
    [|done].
  injection Hshow as <- _ _ _.
  destruct (mapM_entries_exact _ _ _ _ _ _ Hm n rm Hn) as (e & He & Hbuilt).
  destruct (entryFor_exact _ _ _ _ _ _ Hbuilt) as (r & p & Hl & Hp & ->).
  exists r, p. split; [done|]. split; [done|].
  rewrite withGoBack_app, lookup_app_r by lia.
  by replace (length (goBackEntry goBack) + n - length (goBackEntry goBack)) with n by lia.
Qed.

(** X5.  Executing an item that the constructor built calls the provider of its
    own remote once, with the resource it was built for: [copy] under a true
    clipboard intent, [open] otherwise.  The promise of the provider is what
    [execute] returns, and it does not throw. *)
Theorem built_item_executes (rm : GitRemote) (resource : Ref)
    (clipboard_ : option bool) (h h' : Heap) (i : OpenRemoteCommandQuickPickItem) :
  new_OpenRemoteCommandQuickPickItem rm resource clipboard_ h = (Ok i, h') ->
  exists p,
    provider rm = Some p /\
    execute i =
      CallProvider (if isTrue clipboard_
                    then ProviderCopy p resource
                    else ProviderOpen p resource) Resolved /\
    forall pick answer,
      settle pick answer (execute i) =
        Ok (answer (if isTrue clipboard_
                    then ProviderCopy p resource
                    else ProviderOpen p resource)) /\
      providerCalls pick answer (execute i) =
        [if isTrue clipboard_ then ProviderCopy p resource else ProviderOpen p resource].
Proof.
  intros Hnew.
  assert (entryFor resource clipboard_ rm h = (Ok (RemoteEntry i), h')) as He.
  { unfold entryFor. unfold mbind at 1, M_bind at 1. by rewrite Hnew. }
  destruct (entryFor_exact _ _ _ _ _ _ He) as (r & p & _ & Hp & [= ->]).
  exists p. split; [done|]. unfold execute. cbn. rewrite Hp.
  by destruct (isTrue clipboard_).
Qed.

(** X6.  [show] writes to no object, whether it presents or rejects. *)
Theorem show_leaves_heap (remotes : Ref) (placeHolder : string)
    (resource : Ref) (clipboard_ : option bool)
    (goBack : option CommandQuickPickItem) (h : Heap) :
  snd (show remotes placeHolder resource clipboard_ goBack h) = h.
Proof.
  destruct (arrays h !! remotes) as [rs|] eqn:Ha.
  - rewrite (show_steps _ _ _ _ _ _ rs Ha).
    pose proof (mapM_entries_heap resource clipboard_ rs h) as Hh.
    by destruct (mapM (entryFor resource clipboard_) rs h) as [[entries|err] h1].
  - by rewrite show_dangling.
Qed.

(** X7.  The consolidated constructor and then [show], on the same objects: the
    per-remote items refer to the resource object the constructor wrote to,
    so that for a deleted file their providers are given the previous sha. *)
Theorem consolidated_then_show (remotes resource : Ref)
    (goBack : option CommandQuickPickItem) (placeHolder : string)
    (clipboard_ : option bool) (h : Heap)
    (r : RemoteResource) (rs : list GitRemote) :
  resources h !! resource = Some r ->
  arrays h !! remotes = Some rs ->
  Forall HasProvider rs ->
  exists entries options k,
    show remotes placeHolder resource clipboard_ goBack
      (snd (OpenRemotesCommandQuickPickItem remotes resource goBack h)) =
      (ShowQuickPick (withGoBack goBack entries) options k,
       snd (OpenRemotesCommandQuickPickItem remotes resource goBack h)) /\
    Forall2 (EntryOf resource clipboard_) rs entries /\
    resources (snd (OpenRemotesCommandQuickPickItem remotes resource goBack h))
      !! resource = Some (shaAssigned r).
Proof.
  intros Hl Ha Hall. rewrite (consolidated_heap remotes resource goBack h r Hl).
  pose proof (afterDescribe_self resource r h Hl) as Hl1.
  assert (arrays (afterDescribe resource r h) !! remotes = Some rs) as Ha1
    by by rewrite afterDescribe_arrays.
  rewrite (show_steps _ _ _ _ _ _ rs Ha1).
  destruct (mapM_entries_ok resource clipboard_ rs _ _ Hl1 Hall) as (entries & -> & Hf).
  by eexists entries, _, _.
Qed.

(** X8.  Building the consolidated item once more, from the objects the first
    construction left: no further write, the same description, command and
    payload, and the same item altogether when the resource name does not
    depend on the assigned [sha]. *)
Theorem consolidated_rebuild (remotes resource : Ref)
    (goBack : option CommandQuickPickItem) (h h1 : Heap)
    (r : RemoteResource) (rs : list GitRemote) (item : CommandQuickPickItem) :
  resources h !! resource = Some r ->
  arrays h !! remotes = Some rs ->
  OpenRemotesCommandQuickPickItem remotes resource goBack h = (Ok item, h1) ->
  exists item',
    OpenRemotesCommandQuickPickItem remotes resource goBack h1 = (Ok item', h1) /\
    description item' = description item /\
    command item' = command item /\
    args item' = args item /\
    (getNameFromRemoteResource (shaAssigned r) = getNameFromRemoteResource r ->
     item' = item).
Proof.
  intros Hl Ha Hc.
  destruct (consolidated_steps remotes resource goBack h r rs Hl Ha) as (text & Ht & Hs).
  assert (h1 = afterDescribe resource r h) as ->.
  { pose proof (consolidated_heap remotes resource goBack h r Hl) as Hh.
    by rewrite Hc in Hh. }
  pose proof (afterDescribe_self resource r h Hl) as Hl1.
  assert (arrays (afterDescribe resource r h) !! remotes = Some rs) as Ha1
    by by rewrite afterDescribe_arrays.
  destruct (consolidated_steps remotes resource goBack _ _ rs Hl1 Ha1)
    as (text' & Ht' & Hs').
  rewrite (describe_idempotent _ _ _ _ Ht) in Ht'. injection Ht' as Htext Hheap.
  subst text'. rewrite <- Hheap in Hs'. rewrite Hs'. rewrite Hs in Hc. clear Hs Hs'.
  destruct (selectRemote rs) as [rm|].
  - destruct (provider rm) as [p|]; [|done]. injection Hc as <-.
    eexists. split; [reflexivity|]. repeat split. by intros ->.
  - destruct rs as [|first xs]; [done|].
    destruct (every (sameProvider (Some first)) (first :: xs)) as [same|]; [|done].
    injection Hc as <-. eexists. split; [reflexivity|]. repeat split. by intros ->.
Qed.

End FurtherSession.

Section FurtherConsolidated.
Context `{Externals}.

(** X9.  Several remotes, one or more of them flagged: the consolidated item
    names the provider of the first flagged remote and shows its path,
    whatever comes after it in the list. *)
Theorem consolidated_names_first_default (remotes resource : Ref)
    (goBack : option CommandQuickPickItem) (h : Heap) (r : RemoteResource)
    (before after : list GitRemote) (rm : GitRemote) (p : RemoteProvider) :
  resources h !! resource = Some r ->
  arrays h !! remotes = Some (before ++ rm :: after)%list ->
  length (before ++ rm :: after)%list > 1 ->
  Forall (fun x => default x = false) before ->
  default rm = true ->
  provider rm = Some p ->
  exists item text h',
    OpenRemotesCommandQuickPickItem remotes resource goBack h = (Ok item, h') /\
    describe resource h = (Ok text, h') /\
    label item = "$(link-external) Open " +:+ getNameFromRemoteResource r +:+
                 " on " +:+ name p /\
    description item =
      Strings_pad GlyphChars_Dash 2 3 +:+ " $(repo) " +:+ path p +:+ " " +:+
      Strings_pad GlyphChars_Dot 1 1 +:+ " " +:+ text.
Proof.
  intros Hl Ha Hlen Hbefore Hd Hp.
  destruct (consolidated_steps remotes resource goBack h r _ Hl Ha) as (text & Ht & Hc).
  assert (selectRemote (before ++ rm :: after)%list = Some rm) as Hs.
  { rewrite selectRemote_many by done. apply find_default_first.
    by exists before, after. }
  rewrite Hs, Hp in Hc. by eexists _, text, _.
Qed.

End FurtherConsolidated.

(** *** Examples of the further properties *)

Section FurtherExamples.
#[local] Existing Instance specExternals.

Lemma selectRemote_member_witness :
  selectRemote defaultSecond = Some (remoteOf "GitLab" "grp/repo" true) /\
  remoteOf "GitLab" "grp/repo" true ∈ defaultSecond /\
  selectRemote mixedRemotes = None.
Proof.
  split; [reflexivity|]. split.
  - by apply (proj1 (selectRemote_member defaultSecond)).
  - apply (proj2 (selectRemote_member mixedRemotes)). right.
    split; [simpl; lia | repeat constructor].
Defined.

(** A revision of a file at a sha, without a commit: the short sha follows
    the base name, and nothing is written. *)
Lemma describe_revision_without_file_commit_witness :
  resources (heapOf (Revision "src/app/main.ts" (Some "0123456789abcdef") None) [])
    !! 1%positive = Some (Revision "src/app/main.ts" (Some "0123456789abcdef") None) /\
  (forall c : GitLogCommit, None = Some c -> isFile c = false) /\
  describe 1 (heapOf (Revision "src/app/main.ts" (Some "0123456789abcdef") None) []) =
    (Ok ("$(file-text) main.ts in " +:+ nbsp +:+ "$(git-commit) 0123456"),
     heapOf (Revision "src/app/main.ts" (Some "0123456789abcdef") None) []).
Proof.
  split; [reflexivity|]. split; [discriminate|].
  destruct (describe_revision_without_file_commit 1
              (heapOf (Revision "src/app/main.ts" (Some "0123456789abcdef") None) [])
              _ _ None eq_refl)
    as (text & Hd & _ & Hsha); [discriminate|].
  destruct (Hsha _ eq_refl) as [_ Hshort].
  rewrite Hd, Hshort; [reflexivity | discriminate].
Defined.

(** The deleted file, described twice. *)
Lemma describe_idempotent_witness :
  describe 1 (heapOf deletedRevision []) =
    (Ok ("$(file-text) main.ts in " +:+ nbsp +:+ "$(git-commit) aaa111 (deleted in " +:+
         nbsp +:+ "$(git-commit) bbb222)"),
     snd (describe 1 (heapOf deletedRevision []))) /\
  describe 1 (snd (describe 1 (heapOf deletedRevision []))) =
    (Ok ("$(file-text) main.ts in " +:+ nbsp +:+ "$(git-commit) aaa111 (deleted in " +:+
         nbsp +:+ "$(git-commit) bbb222)"),
     snd (describe 1 (heapOf deletedRevision []))).
Proof.
  assert (describe 1 (heapOf deletedRevision []) =
            (Ok ("$(file-text) main.ts in " +:+ nbsp +:+
                 "$(git-commit) aaa111 (deleted in " +:+ nbsp +:+ "$(git-commit) bbb222)"),
             snd (describe 1 (heapOf deletedRevision [])))) as Hd by reflexivity.
  split; [exact Hd|]. exact (describe_idempotent _ _ _ _ Hd).
Defined.

(** Copying the link of the repository, three remotes behind a
    back-navigation item: the third entry is GitLab's. *)
Lemma show_item_texts_witness :
  arrays (heapOf Repo mixedRemotes) !! 2%positive = Some mixedRemotes /\
  exists items options k h',
    show 2 "Copy from" 1 (Some true) (Some goBackItem) (heapOf Repo mixedRemotes) =
      (ShowQuickPick items options k, h') /\
    items !! 2 =
      Some (RemoteEntry
              {| base :=
                   QuickPickItem
                     "$(link-external) Copy Repository Url to Clipboard from GitLab"
                     (Strings_pad GlyphChars_Dash 2 3 +:+ " $(repo) org/repo")
                     None None;
                 this_remote := remoteOf "GitLab" "org/repo" false;
                 this_resource := 1;
                 clipboard := Some true |}).
Proof.
  split; [reflexivity|].
  pose proof (eq_refl :
    show 2 "Copy from" 1 (Some true) (Some goBackItem) (heapOf Repo mixedRemotes) =
      (ShowQuickPick _ _ _, _)) as Hshow.
  eexists _, _, _, _. split; [exact Hshow|].
  destruct (show_item_texts 2 "Copy from" 1 (Some true) (Some goBackItem) _ _
              mixedRemotes _ _ _ (heapOf_remotes Repo mixedRemotes) Hshow
              1 (remoteOf "GitLab" "org/repo" false) eq_refl)
    as (r & p & Hl & Hp & Hitem).
  injection Hl as <-. injection Hp as <-. exact Hitem.
Defined.

(** An item built for GitHub with the clipboard intent copies. *)
Lemma built_item_executes_witness :
  exists i h',
    new_OpenRemoteCommandQuickPickItem (remoteOf "GitHub" "org/repo" false) 1
      (Some true) (heapOf Repo []) = (Ok i, h') /\
    execute i =
      CallProvider (ProviderCopy {| name := "GitHub"; path := "org/repo" |} 1) Resolved.
Proof.
  pose proof (eq_refl :
    new_OpenRemoteCommandQuickPickItem (remoteOf "GitHub" "org/repo" false) 1
      (Some true) (heapOf Repo []) = (Ok _, _)) as Hnew.
  eexists _, _. split; [exact Hnew|].
  destruct (built_item_executes _ _ _ _ _ _ Hnew) as (p & Hp & Hexec & _).
  injection Hp as <-. exact Hexec.
Defined.

(** The deleted file: after the consolidated item is built, the per-remote
    items are presented over the resource at the previous sha. *)
Lemma consolidated_then_show_witness :
  resources (heapOf deletedRevision mixedRemotes) !! 1%positive = Some deletedRevision /\
  arrays (heapOf deletedRevision mixedRemotes) !! 2%positive = Some mixedRemotes /\
  Forall HasProvider mixedRemotes /\
  (exists entries options k h',
     show 2 "Open on" 1 None None
       (snd (OpenRemotesCommandQuickPickItem 2 1 None
               (heapOf deletedRevision mixedRemotes))) =
       (ShowQuickPick entries options k, h') /\
     length entries = 3) /\
  resources (snd (OpenRemotesCommandQuickPickItem 2 1 None
                    (heapOf deletedRevision mixedRemotes))) !! 1%positive =
    Some (Revision "src/app/main.ts" (Some "aaa111")
            (Some (fileCommit (Some "D") "bbb222" (Some "aaa111")))).
Proof.
  assert (Forall HasProvider mixedRemotes) as Hall by (repeat constructor; by eexists).
  split; [reflexivity|]. split; [reflexivity|]. split; [exact Hall|].
  destruct (consolidated_then_show 2 1 None "Open on" None _ _ _
              (heapOf_resource deletedRevision mixedRemotes) (heapOf_remotes _ _) Hall)
    as (entries & options & k & Hshow & Hf & Hres).
  split; [|exact Hres].
  eexists entries, options, k, _. split; [exact Hshow|].
  by rewrite <- (Forall2_length _ _ _ Hf).
Defined.

(** The deleted file and a flagged remote: the item built a second time is
    the item built the first time. *)
Lemma consolidated_rebuild_witness :
  resources (heapOf deletedRevision defaultSecond) !! 1%positive = Some deletedRevision /\
  arrays (heapOf deletedRevision defaultSecond) !! 2%positive = Some defaultSecond /\
  exists item h1,
    OpenRemotesCommandQuickPickItem 2 1 None (heapOf deletedRevision defaultSecond) =
      (Ok item, h1) /\
    OpenRemotesCommandQuickPickItem 2 1 None h1 = (Ok item, h1).
Proof.
  split; [reflexivity|]. split; [reflexivity|].
  pose proof (eq_refl :
    OpenRemotesCommandQuickPickItem 2 1 None (heapOf deletedRevision defaultSecond) =
      (Ok _, _)) as Hc.
  eexists _, _. split; [exact Hc|].
  destruct (consolidated_rebuild 2 1 None _ _ _ _ _
              (heapOf_resource deletedRevision defaultSecond) (heapOf_remotes _ _) Hc)
    as (item' & Hc' & _ & _ & _ & Hsame).
  rewrite Hc'. by rewrite (Hsame eq_refl).
Defined.

(** GitHub unflagged, GitLab and Bitbucket flagged: the item names GitLab. *)
Lemma consolidated_names_first_default_witness :
  resources (heapOf Repo defaultSecond) !! 1%positive = Some Repo /\
  arrays (heapOf Repo defaultSecond) !! 2%positive =
    Some ([remoteOf "GitHub" "org/repo" false] ++
          remoteOf "GitLab" "grp/repo" true ::
          [remoteOf "Bitbucket" "team/repo" true])%list /\
  length defaultSecond > 1 /\
  Forall (fun x => default x = false) [remoteOf "GitHub" "org/repo" false] /\
  default (remoteOf "GitLab" "grp/repo" true) = true /\
  provider (remoteOf "GitLab" "grp/repo" true) =
    Some {| name := "GitLab"; path := "grp/repo" |} /\
  exists item h',
    OpenRemotesCommandQuickPickItem 2 1 None (heapOf Repo defaultSecond) = (Ok item, h') /\
    label item = "$(link-external) Open Repository on GitLab".
Proof.
  assert (length defaultSecond > 1) as Hlen by (simpl; lia).
  assert (Forall (fun x => default x = false) [remoteOf "GitHub" "org/repo" false])
    as Hb by (repeat constructor).
  split; [reflexivity|]. split; [reflexivity|]. split; [exact Hlen|].
  split; [exact Hb|]. split; [reflexivity|]. split; [reflexivity|].
  destruct (consolidated_names_first_default 2 1 None (heapOf Repo defaultSecond) Repo
              [remoteOf "GitHub" "org/repo" false]
              [remoteOf "Bitbucket" "team/repo" true]
              (remoteOf "GitLab" "grp/repo" true)
              {| name := "GitLab"; path := "grp/repo" |}
              eq_refl eq_refl Hlen Hb eq_refl eq_refl)
    as (item & text & h' & Hc & _ & Hlabel & _).
  by exists item, h'.
Defined.

End FurtherExamples.
